(** * Verification of [inspect_model.utils]: the model inspector

    A shallow embedding of [src/inspect_model/utils.py].  The inspector
    classifies the members of an ORM model class into six sets of names
    ([fields], [relation_fields], [many_fields], [attributes], [methods],
    [properties]) and their union [items].

    The class under inspection and the framework are collaborators of the
    code, so they appear as data: a class is the list [dir] returns plus the
    namespace [getattr] reads, a field entry is a record of the attributes
    the code reads on it, and the two optional imports are flags of the
    running framework.  Exceptions are values of an error monad.  The sets
    of an inspector are Python objects handed to [_add_item] by reference:
    the last part models them in a store and relates it to the functional
    model. *)

From stdpp Require Import base gmap sets list strings.
From Stdlib Require Import ZArith Lia.

Local Open Scope string_scope.
#[local] Set Warnings "-clear-no-such-hyp".

(** ** Exceptions *)

Inductive exn : Type :=
| AttributeError
| TypeError
| FieldDoesNotExist
| ImportError
| DescriptorError.

Inductive result (A : Type) : Type :=
| Ok (a : A)
| Raise (e : exn).

Arguments Ok {A} a.
Arguments Raise {A} e.

Definition bind {A B : Type} (r : result A) (k : A → result B) : result B :=
  match r with
  | Ok a => k a
  | Raise e => Raise e
  end.

Notation "x ←! r ; k" := (bind r (λ x, k))
  (at level 100, r at next level, right associativity,
   format "x  ←!  r ; '/' k").

(** [for x in l: body], threading the receiver and stopping at the first
    exception. *)
Fixpoint for_each {A S : Type} (l : list A) (body : A → S → result S) (s : S)
  : result S :=
  match l with
  | [] => Ok s
  | x :: l' => s' ←! body x s; for_each l' body s'
  end.

(** ** The ORM's field metadata, as the code reads it *)

(** A relation descriptor ([field.rel]): [multiple] is its cardinality flag and
    [has_through] is [hasattr(field.rel, 'through')]. *)
Record Rel : Type := {
  multiple : bool;
  has_through : bool;
}.

(** The attribute [rel] of a field object: missing (reading it raises
    [AttributeError]), [None], or a relation descriptor. *)
Inductive RelAttr : Type :=
| RelMissing
| RelNone
| RelObj (r : Rel).

(** A field entry of [_meta.get_fields()]: a forward field or a reverse
    relation object.  [get_accessor_name] and [field] exist on reverse
    relation objects only; on other entries they are [None] and a read raises
    [AttributeError].  [generic_foreign_key] is
    [isinstance(f, GenericForeignKey)]. *)
#[local] Set Warnings "-register-all".
Inductive Field : Type := mkField {
  name : string;
  auto_created : bool;
  concrete : bool;
  many_to_many : bool;
  rel : RelAttr;
  get_accessor_name : option string;
  field : option Field;
  generic_foreign_key : bool;
}.
#[local] Set Warnings "register-all".

(** The metadata descriptor [_meta].  [get_field n] is [None] when the
    framework raises [FieldDoesNotExist]. *)
Record Options : Type := {
  get_fields : list Field;
  get_field : string → option Field;
  virtual_fields : list Field;
}.

(** ** Python values seen through [getattr] *)

Inductive Default : Type :=
| DNone
| DInt (z : Z)
| DStr (s : string)
| DObject.

(** The tuple [inspect.getargspec] returns. *)
Record ArgSpec : Type := {
  args : list string;
  varargs : option string;
  keywords : option string;
  defaults : option (list Default);
}.

Record Function : Type := {
  argspec : ArgSpec;
  co_generator : bool;
}.

(** What a method object wraps ([im_func]): a Python function, or another
    callable that [getargspec] refuses. *)
Inductive ImFunc : Type :=
| ImFunction (f : Function)
| ImCallable.

Inductive PyObject : Type :=
| PyNone
| PyData (truth : bool)
| PyOptions (o : Options)
| PyManager
| PyModule
| PyClass (abstract : bool)
| PyFunction (f : Function)
| PyMethod (im_func : ImFunc)
| PyBuiltin
| PyGenerator
| PyTraceback
| PyFrame
| PyCode
| PyMethodDescriptor
| PyProperty
| PyGetSetDescriptor
| PyMemberDescriptor
| PyDataDescriptor.

(** What reading a member of an object does: the lookup yields a value, or
    the member's descriptor raises [AttributeError], or it raises an
    exception of another class ([DescriptorError] stands for it). *)
Inductive Member : Type :=
| Value (v : PyObject)
| RaisesAttributeError
| RaisesOther.

(** A class: the names [dir] lists on it and what reading each name on it
    does. *)
Record ClassObj : Type := {
  dir : list string;
  namespace : gmap string Member;
}.

(** An instance: its class, and the names [dir] lists and what reading each
    name does on the instance itself (instance attributes, bound methods,
    the values its descriptors compute). *)
Record InstanceObj : Type := {
  instance_class : ClassObj;
  instance_dir : list string;
  instance_namespace : gmap string Member;
}.

(** A Python object the inspector can hold in [self.model]: a class or an
    instance. *)
Inductive ModelRef : Type :=
| AClass (c : ClassObj)
| AnInstance (o : InstanceObj).

(** [dir(obj)]. *)
Definition dir_of (obj : ModelRef) : list string :=
  match obj with
  | AClass c => dir c
  | AnInstance o => instance_dir o
  end.

Definition namespace_of (obj : ModelRef) : gmap string Member :=
  match obj with
  | AClass c => namespace c
  | AnInstance o => instance_namespace o
  end.

(** [getattr(obj, n, default)]: the default replaces a missing attribute and
    an [AttributeError]; any other exception propagates. *)
Definition getattr (obj : ModelRef) (n : string) (default : PyObject)
  : result PyObject :=
  match namespace_of obj !! n with
  | Some (Value v) => Ok v
  | Some RaisesAttributeError | None => Ok default
  | Some RaisesOther => Raise DescriptorError
  end.

(** Truth value of an object, for [if opts:]. *)
Definition truthy (v : PyObject) : bool :=
  match v with
  | PyNone => false
  | PyData b => b
  | _ => true
  end.

(** The framework the code runs in: whether
    [django.contrib.contenttypes.generic] and [django.db.models.manager]
    can be imported. *)
Record Env : Type := {
  contenttypes_generic : bool;
  models_manager : bool;
}.

Definition import_GenericForeignKey (env : Env) : result unit :=
  if contenttypes_generic env then Ok () else Raise ImportError.

Definition import_Manager (env : Env) : result unit :=
  if models_manager env then Ok () else Raise ImportError.

(** ** The [inspect] predicates *)

Module inspect.

Definition ismodule (v : PyObject) : bool :=
  match v with PyModule => true | _ => false end.

Definition isclass (v : PyObject) : bool :=
  match v with PyClass _ => true | _ => false end.

Definition ismethod (v : PyObject) : bool :=
  match v with PyMethod _ => true | _ => false end.

Definition isfunction (v : PyObject) : bool :=
  match v with PyFunction _ => true | _ => false end.

(** [isgeneratorfunction] reads [object.func_code] on every function and
    method object; a method object forwards the read to its [im_func], and
    a callable that is not a Python function has no [func_code]. *)
Definition isgeneratorfunction (v : PyObject) : result bool :=
  match v with
  | PyFunction f => Ok (co_generator f)
  | PyMethod (ImFunction f) => Ok (co_generator f)
  | PyMethod ImCallable => Raise AttributeError
  | _ => Ok false
  end.

Definition isgenerator (v : PyObject) : bool :=
  match v with PyGenerator => true | _ => false end.

Definition istraceback (v : PyObject) : bool :=
  match v with PyTraceback => true | _ => false end.

Definition isframe (v : PyObject) : bool :=
  match v with PyFrame => true | _ => false end.

Definition iscode (v : PyObject) : bool :=
  match v with PyCode => true | _ => false end.

Definition isbuiltin (v : PyObject) : bool :=
  match v with PyBuiltin => true | _ => false end.

Definition ismethoddescriptor (v : PyObject) : bool :=
  match v with PyMethodDescriptor => true | _ => false end.

Definition isroutine (v : PyObject) : bool :=
  isbuiltin v || isfunction v || ismethod v || ismethoddescriptor v.

Definition isabstract (v : PyObject) : bool :=
  match v with PyClass abstract => abstract | _ => false end.

Definition isdatadescriptor (v : PyObject) : bool :=
  match v with
  | PyProperty | PyGetSetDescriptor | PyMemberDescriptor | PyDataDescriptor =>
      true
  | _ => false
  end.

Definition isgetsetdescriptor (v : PyObject) : bool :=
  match v with PyGetSetDescriptor => true | _ => false end.

Definition ismemberdescriptor (v : PyObject) : bool :=
  match v with PyMemberDescriptor => true | _ => false end.

(** [getargspec]: a method is unwrapped to its [im_func]; anything that is
    not a Python function raises [TypeError]. *)
Definition getargspec (func : PyObject) : result ArgSpec :=
  match func with
  | PyFunction f => Ok (argspec f)
  | PyMethod (ImFunction f) => Ok (argspec f)
  | _ => Raise TypeError
  end.

End inspect.

Definition isinstance_Manager (v : PyObject) : bool :=
  match v with PyManager => true | _ => false end.

Definition isinstance_property (v : PyObject) : bool :=
  match v with PyProperty => true | _ => false end.

(** The model reference itself, for [inspect.isclass(model)]. *)
Definition isclass_ref (m : ModelRef) : bool :=
  match m with AClass _ => true | AnInstance _ => false end.

(** The class a reference resolves to: the class itself, or the class of the
    instance. *)
Definition class_of (m : ModelRef) : ClassObj :=
  match m with AClass c => c | AnInstance o => instance_class o end.

(** ** Module constants *)

(** A check that always answers. *)
Definition total (check : PyObject → bool) (v : PyObject) : result bool :=
  Ok (check v).

Definition ALL_BUT_ATTRIBUTES : list (PyObject → result bool) := [
  total inspect.ismodule;
  total inspect.isclass;
  total inspect.ismethod;
  total inspect.isfunction;
  inspect.isgeneratorfunction;
  total inspect.isgenerator;
  total inspect.istraceback;
  total inspect.isframe;
  total inspect.iscode;
  total inspect.isroutine;
  total inspect.isabstract;
  total inspect.ismethoddescriptor;
  total inspect.isdatadescriptor;
  total inspect.isgetsetdescriptor;
  total inspect.ismemberdescriptor
].

Definition DJANGO_GENERATED_METHODS : gset string :=
  list_to_set [
    "check";
    "clean";
    "clean_fields";
    "delete";
    "full_clean";
    "save";
    "save_base";
    "validate_unique"
  ].

(** ** [is_method_without_args] *)

(** [len(x)] and the slice [l[:-n]]. *)
Definition len {A : Type} (l : list A) : nat := length l.

Definition slice_to_neg {A : Type} (l : list A) (n : nat) : list A :=
  match n with
  | O => []
  | S _ => take (length l - n) l
  end.

Definition is_method_without_args (func : PyObject) : result bool :=
  if negb (inspect.isfunction func) && negb (inspect.ismethod func) then
    Ok false
  else
    spec ←! inspect.getargspec func;
    let args :=
      match defaults spec with
      | Some (d :: ds) => slice_to_neg (args spec) (len (d :: ds))
      | _ => args spec
      end in
    Ok (bool_decide (len args = 1)).

(** ** The inspector *)

Record InspectModel : Type := {
  model : ModelRef;
  fields : gset string;
  relation_fields : gset string;
  many_fields : gset string;
  attributes : gset string;
  methods : gset string;
  items : gset string;
  properties : gset string;
}.

(** The set object handed to [_add_item] is always one of the receiver's
    own six sets; [ItemType] says which one. *)
Inductive ItemType : Type :=
| Fields
| RelationFields
| ManyFields
| Attributes
| Methods
| Properties.

Definition item_type_add (item : string) (item_type : ItemType)
    (self : InspectModel) : InspectModel :=
  match item_type with
  | Fields =>
      {| model := model self; fields := {[item]} ∪ fields self;
         relation_fields := relation_fields self;
         many_fields := many_fields self; attributes := attributes self;
         methods := methods self; items := items self;
         properties := properties self |}
  | RelationFields =>
      {| model := model self; fields := fields self;
         relation_fields := {[item]} ∪ relation_fields self;
         many_fields := many_fields self; attributes := attributes self;
         methods := methods self; items := items self;
         properties := properties self |}
  | ManyFields =>
      {| model := model self; fields := fields self;
         relation_fields := relation_fields self;
         many_fields := {[item]} ∪ many_fields self;
         attributes := attributes self;
         methods := methods self; items := items self;
         properties := properties self |}
  | Attributes =>
      {| model := model self; fields := fields self;
         relation_fields := relation_fields self;
         many_fields := many_fields self;
         attributes := {[item]} ∪ attributes self;
         methods := methods self; items := items self;
         properties := properties self |}
  | Methods =>
      {| model := model self; fields := fields self;
         relation_fields := relation_fields self;
         many_fields := many_fields self; attributes := attributes self;
         methods := {[item]} ∪ methods self; items := items self;
         properties := properties self |}
  | Properties =>
      {| model := model self; fields := fields self;
         relation_fields := relation_fields self;
         many_fields := many_fields self; attributes := attributes self;
         methods := methods self; items := items self;
         properties := {[item]} ∪ properties self |}
  end.

Definition items_add (item : string) (self : InspectModel) : InspectModel :=
  {| model := model self; fields := fields self;
     relation_fields := relation_fields self;
     many_fields := many_fields self; attributes := attributes self;
     methods := methods self; items := {[item]} ∪ items self;
     properties := properties self |}.

Definition _add_item (item : string) (item_type : ItemType)
    (self : InspectModel) : InspectModel :=
  items_add item (item_type_add item item_type self).

(** [s.startswith(p)]. *)
Definition startswith (s p : string) : bool := String.prefix p s.

(** [any(l)]. *)
Definition any (l : list bool) : bool := foldr orb false l.

(** [[f(x) for f in fs]], stopping at the first exception. *)
Fixpoint comprehension {A B : Type} (fs : list (A → result B)) (x : A)
  : result (list B) :=
  match fs with
  | [] => Ok []
  | f :: fs' => b ←! f x; bs ←! comprehension fs' x; Ok (b :: bs)
  end.

Definition reset_fields (self : InspectModel) : InspectModel :=
  {| model := model self; fields := ∅; relation_fields := ∅;
     many_fields := ∅; attributes := attributes self;
     methods := methods self; items := items self;
     properties := properties self |}.

Definition reset_attributes (self : InspectModel) : InspectModel :=
  {| model := model self; fields := fields self;
     relation_fields := relation_fields self;
     many_fields := many_fields self; attributes := ∅;
     methods := methods self; items := items self;
     properties := properties self |}.

Definition reset_methods (self : InspectModel) : InspectModel :=
  {| model := model self; fields := fields self;
     relation_fields := relation_fields self;
     many_fields := many_fields self; attributes := attributes self;
     methods := ∅; items := items self;
     properties := properties self |}.

Definition reset_properties (self : InspectModel) : InspectModel :=
  {| model := model self; fields := fields self;
     relation_fields := relation_fields self;
     many_fields := many_fields self; attributes := attributes self;
     methods := methods self; items := items self;
     properties := ∅ |}.

(** Body of the loop over [opts_names] in [update_fields].  The body also
    reads [field.model], which every entry has and which is not used. *)
Definition update_fields_body (opts : Options) (f : string)
    (self : InspectModel) : result InspectModel :=
  match get_field opts f with
  | None => Raise FieldDoesNotExist
  | Some field0 =>
      let direct := negb (auto_created field0) || concrete field0 in
      let m2m := many_to_many field0 in
      if negb direct then
        match get_accessor_name field0 with
        | None => Raise AttributeError
        | Some name0 =>
            match field field0 with
            | None => Raise AttributeError
            | Some field1 =>
                match rel field1 with
                | RelObj r =>
                    if multiple r then Ok (_add_item name0 ManyFields self)
                    else Ok (_add_item name0 RelationFields self)
                | RelNone | RelMissing => Raise AttributeError
                end
            end
        end
      else
        let name0 := name field0 in
        match rel field0 with
        | RelMissing => Raise AttributeError
        | RelObj r =>
            if has_through r then Ok (_add_item name0 ManyFields self)
            else Ok (_add_item name0 RelationFields self)
        | RelNone => Ok (_add_item name0 Fields self)
        end
  end.

(** Body of the loop over [opts.virtual_fields]. *)
Definition virtual_fields_body (f : Field) (self : InspectModel)
  : result InspectModel :=
  if generic_foreign_key f then Ok (_add_item (name f) RelationFields self)
  else Ok self.

(** The [try: ... except ImportError: pass] block of [update_fields]. *)
Definition update_generic_foreign_keys (env : Env) (opts : Options)
    (self : InspectModel) : result InspectModel :=
  match import_GenericForeignKey env with
  | Ok _ => for_each (virtual_fields opts) virtual_fields_body self
  | Raise ImportError => Ok self
  | Raise e => Raise e
  end.

(** [opts.model._meta] is [opts] itself: the framework stores the class in
    [opts.model] when it installs [opts] as the class's [_meta]. *)
Definition update_fields (env : Env) (self : InspectModel)
  : result InspectModel :=
  let self := reset_fields self in
  opts ←! getattr (model self) "_meta" PyNone;
  if truthy opts then
    match opts with
    | PyOptions o =>
        let opts_names := map name (get_fields o) in
        self ←! for_each opts_names (update_fields_body o) self;
        update_generic_foreign_keys env o self
    | _ => Raise AttributeError
    end
  else Ok self.

(** The [try] block of [update_attributes]: [Ok true] when [continue] runs. *)
Definition is_manager (env : Env) (item : PyObject) : result bool :=
  match import_Manager env with
  | Ok _ => Ok (isinstance_Manager item)
  | Raise ImportError => Ok false
  | Raise e => Raise e
  end.

Definition update_attributes_body (env : Env) (a : string)
    (self : InspectModel) : result InspectModel :=
  if startswith a "_" || bool_decide (a ∈ fields self) then Ok self
  else
    item ←! getattr (model self) a PyNone;
    skip ←! is_manager env item;
    if skip then Ok self
    else
      answers ←! comprehension ALL_BUT_ATTRIBUTES item;
      if any answers then Ok self
      else Ok (_add_item a Attributes self).

Definition update_attributes (env : Env) (self : InspectModel)
  : result InspectModel :=
  let self := reset_attributes self in
  for_each (dir_of (model self)) (update_attributes_body env) self.

Definition update_methods_body (m : string) (self : InspectModel)
  : result InspectModel :=
  if startswith m "_" || bool_decide (m ∈ fields self) then Ok self
  else if bool_decide (m ∈ DJANGO_GENERATED_METHODS) then Ok self
  else
    func ←! getattr (model self) m PyNone;
    b ←! is_method_without_args func;
    if b then Ok (_add_item m Methods self) else Ok self.

Definition update_methods (self : InspectModel) : result InspectModel :=
  let self := reset_methods self in
  for_each (dir_of (model self)) update_methods_body self.

Definition update_properties_body (name0 : string) (self : InspectModel)
  : result InspectModel :=
  v ←! getattr (model self) name0 PyNone;
  if isinstance_property v
  then Ok (_add_item name0 Properties self)
  else Ok self.

Definition update_properties (self : InspectModel) : result InspectModel :=
  let self := reset_properties self in
  for_each (dir_of (model self)) update_properties_body self.

(** [InspectModel(model)]: the constructor.  [self.model] is the argument,
    replaced by [model.__class__] when the argument is not a class. *)
Definition __init__ (env : Env) (model0 : ModelRef) : result InspectModel :=
  let self_model := model0 in
  let self_model :=
    if negb (isclass_ref model0) then AClass (class_of model0)
    else self_model in
  let self :=
    {| model := self_model; fields := ∅; relation_fields := ∅;
       many_fields := ∅; attributes := ∅; methods := ∅; items := ∅;
       properties := ∅ |} in
  self ←! update_fields env self;
  self ←! update_attributes env self;
  self ←! update_methods self;
  update_properties self.

(** ** Reading a set of the inspector by its [ItemType] *)

#[global] Instance ItemType_eq_dec : EqDecision ItemType.
Proof. solve_decision. Defined.

Definition item_type_get (t : ItemType) (self : InspectModel) : gset string :=
  match t with
  | Fields => fields self
  | RelationFields => relation_fields self
  | ManyFields => many_fields self
  | Attributes => attributes self
  | Methods => methods self
  | Properties => properties self
  end.

(** Every loop of the inspector has one shape: an iteration decides, from
    the element and the receiver, whether a name goes to one of the sets. *)
Definition add_chosen {A : Type}
    (choose : A → InspectModel → result (option (string * ItemType)))
    (x : A) (s : InspectModel) : result InspectModel :=
  o ←! choose x s;
  Ok (match o with
      | Some (n, t) => _add_item n t s
      | None => s
      end).

(** ** The decision each loop body takes *)

Definition choose_field (opts : Options) (f : string) (self : InspectModel)
  : result (option (string * ItemType)) :=
  match get_field opts f with
  | None => Raise FieldDoesNotExist
  | Some field0 =>
      if negb (negb (auto_created field0) || concrete field0) then
        match get_accessor_name field0, field field0 with
        | Some name0, Some field1 =>
            match rel field1 with
            | RelObj r =>
                Ok (Some (name0,
                          if multiple r then ManyFields else RelationFields))
            | _ => Raise AttributeError
            end
        | _, _ => Raise AttributeError
        end
      else
        match rel field0 with
        | RelMissing => Raise AttributeError
        | RelObj r =>
            Ok (Some (name field0,
                      if has_through r then ManyFields else RelationFields))
        | RelNone => Ok (Some (name field0, Fields))
        end
  end.

Definition choose_virtual_field (f : Field) (self : InspectModel)
  : result (option (string * ItemType)) :=
  Ok (if generic_foreign_key f then Some (name f, RelationFields) else None).

Definition choose_attribute (env : Env) (a : string) (self : InspectModel)
  : result (option (string * ItemType)) :=
  if startswith a "_" || bool_decide (a ∈ fields self) then Ok None
  else
    item ←! getattr (model self) a PyNone;
    if models_manager env && isinstance_Manager item then Ok None
    else
      answers ←! comprehension ALL_BUT_ATTRIBUTES item;
      Ok (if any answers then None else Some (a, Attributes)).

Definition choose_method (m : string) (self : InspectModel)
  : result (option (string * ItemType)) :=
  if startswith m "_" || bool_decide (m ∈ fields self) then Ok None
  else if bool_decide (m ∈ DJANGO_GENERATED_METHODS) then Ok None
  else
    func ←! getattr (model self) m PyNone;
    b ←! is_method_without_args func;
    Ok (if b then Some (m, Methods) else None).

Definition choose_property (n : string) (self : InspectModel)
  : result (option (string * ItemType)) :=
  v ←! getattr (model self) n PyNone;
  Ok (if isinstance_property v then Some (n, Properties) else None).

(** ** What [update_fields] leaves behind *)

Definition is_field_type (t : ItemType) : bool :=
  match t with
  | Fields | RelationFields | ManyFields => true
  | Attributes | Methods | Properties => false
  end.

(** A name the generic-foreign-key scan adds. *)
Definition generic_name (env : Env) (o : Options) (n : string) : Prop :=
  contenttypes_generic env = true ∧
  ∃ v, v ∈ virtual_fields o ∧ generic_foreign_key v = true ∧ name v = n.

(** ** What the constructor leaves behind *)

Definition empty_inspector (c : ClassObj) : InspectModel :=
  {| model := AClass c; fields := ∅; relation_fields := ∅; many_fields := ∅;
     attributes := ∅; methods := ∅; items := ∅; properties := ∅ |}.

Definition items_is_union (i : InspectModel) : Prop :=
  items i = fields i ∪ relation_fields i ∪ many_fields i ∪ attributes i ∪
            methods i ∪ properties i.

Definition pairwise_disjoint (i : InspectModel) : Prop :=
  ∀ t t', t ≠ t' → item_type_get t i ## item_type_get t' i.

(** ** How [update_fields] treats an entry *)

(** [direct] in [update_fields]. *)
Definition is_direct (f : Field) : bool :=
  negb (auto_created f) || concrete f.

(** An entry that [get_field] returns for a name of [get_fields()]. *)
Definition resolved_entry (o : Options) (f : Field) : Prop :=
  ∃ entry, entry ∈ get_fields o ∧ get_field o (name entry) = Some f.

(** The branches of the loop body: a direct entry without relation
    metadata, a direct entry with relation metadata (with or without
    [through]), and a reverse entry (remote relation multiple or not). *)
Definition plain_field_entry (f : Field) (n : string) : Prop :=
  is_direct f = true ∧ rel f = RelNone ∧ n = name f.

Definition forward_relation (through : bool) (f : Field) (n : string) : Prop :=
  is_direct f = true ∧ n = name f ∧
  ∃ r, rel f = RelObj r ∧ has_through r = through.

Definition reverse_accessor (mult : bool) (f : Field) (n : string) : Prop :=
  is_direct f = false ∧ get_accessor_name f = Some n ∧
  ∃ remote r, field f = Some remote ∧ rel remote = RelObj r ∧
              multiple r = mult.

(** An entry on which the loop body raises nothing. *)
Definition classifiable (f : Field) : Prop :=
  if is_direct f then rel f ≠ RelMissing
  else ∃ accessor remote r,
         get_accessor_name f = Some accessor ∧ field f = Some remote ∧
         rel remote = RelObj r.

(** ** Parameter counts *)

(** The required-parameter count in the spec's words: the parameters after
    the implicit receiver, less those that have a default.  It is a count,
    so it stops at zero. *)
Definition required_parameter_count (spec : ArgSpec) : nat :=
  length (tail (args spec)) - length (default [] (defaults spec)).

(** A function or method that, by that count, needs no argument beyond the
    receiver. *)
Definition callable_without_args (v : PyObject) : Prop :=
  ∃ f, (v = PyFunction f ∨ v = PyMethod (ImFunction f)) ∧
       required_parameter_count (argspec f) = 0.

(** There is a first parameter and it has no default. *)
Definition receiver_required (spec : ArgSpec) : Prop :=
  length (default [] (defaults spec)) < length (args spec).

(** What the code accepts: as above, and the receiver itself is a
    parameter without a default. *)
Definition method_with_bare_receiver (v : PyObject) : Prop :=
  ∃ f, (v = PyFunction f ∨ v = PyMethod (ImFunction f)) ∧
       receiver_required (argspec f) ∧
       required_parameter_count (argspec f) = 0.

(** ** Example models *)

Definition function_of (a : list string) (d : option (list Default))
  : Function :=
  {| argspec := {| args := a; varargs := None; keywords := None;
                   defaults := d |};
     co_generator := false |}.

Definition method_of (a : list string) (d : option (list Default)) : PyObject :=
  PyMethod (ImFunction (function_of a d)).

Definition plain_field (n : string) : Field :=
  mkField n false true false RelNone None None false.

(** The primary key the framework adds to a model that declares none. *)
Definition auto_field (n : string) : Field :=
  mkField n true true false RelNone None None false.

Definition foreign_key (n : string) : Field :=
  mkField n false true false
    (RelObj {| multiple := true; has_through := false |}) None None false.

Definition one_to_one_field (n : string) : Field :=
  mkField n false true false
    (RelObj {| multiple := false; has_through := false |}) None None false.

Definition many_to_many_field (n : string) : Field :=
  mkField n false false true
    (RelObj {| multiple := true; has_through := true |}) None None false.

Definition reverse_relation (n accessor : string) (remote : Field) : Field :=
  mkField n true false false RelMissing (Some accessor) (Some remote) false.

Definition generic_foreign_key_field (n : string) : Field :=
  mkField n false false false RelNone None None true.

Definition lookup_field (l : list Field) (n : string) : option Field :=
  List.find (λ f, String.eqb (name f) n) l.

Definition options_of (l v : list Field) : Options :=
  {| get_fields := l; get_field := lookup_field l; virtual_fields := v |}.

(** A namespace all of whose members are read without an exception. *)
Definition members (l : list (string * PyObject)) : gmap string Member :=
  Value <$> list_to_map l.

Definition env18 : Env :=
  {| contenttypes_generic := true; models_manager := true |}.

Definition env19 : Env :=
  {| contenttypes_generic := false; models_manager := true |}.

Definition env_bare : Env :=
  {| contenttypes_generic := false; models_manager := false |}.

Definition with_generic (env : Env) : Env :=
  {| contenttypes_generic := true; models_manager := models_manager env |}.

(** The article model of the scenario as the framework builds it: beside
    the declared [title], [author], [tags], [display_name] and [summary] it
    has the primary key [id], the property [pk], the manager, the exception
    class and the methods of the base model. *)
Definition article_options : Options :=
  options_of
    [auto_field "id"; plain_field "title"; foreign_key "author";
     many_to_many_field "tags"] [].

Definition article : ClassObj :=
  {| dir := ["DoesNotExist"; "__init__"; "_meta"; "author"; "clean";
             "delete"; "display_name"; "full_clean"; "get_deferred_fields";
             "objects"; "pk"; "refresh_from_db"; "save";
             "serializable_value"; "summary"; "tags"];
     namespace := members [
       ("DoesNotExist", PyClass false);
       ("__init__", method_of ["self"] None);
       ("_meta", PyOptions article_options);
       ("author", PyDataDescriptor);
       ("clean", method_of ["self"] None);
       ("delete", method_of ["self"; "using"] (Some [DNone]));
       ("display_name", PyProperty);
       ("full_clean", method_of ["self"; "exclude"; "validate_unique"]
                        (Some [DNone; DObject]));
       ("get_deferred_fields", method_of ["self"] None);
       ("objects", PyManager);
       ("pk", PyProperty);
       ("refresh_from_db", method_of ["self"; "using"; "fields"]
                             (Some [DNone; DNone]));
       ("save", method_of ["self"] None);
       ("serializable_value", method_of ["self"; "field_name"] None);
       ("summary", method_of ["self"] None);
       ("tags", PyDataDescriptor)] |}.

(** The manager [objects] is skipped when the manager class can be
    imported, and is a plain attribute otherwise. *)
Definition article_inspector (env : Env) : InspectModel :=
  {| model := AClass article;
     fields := {["id"; "title"]};
     relation_fields := {["author"]};
     many_fields := {["tags"]};
     attributes := if models_manager env then ∅ else {["objects"]};
     methods := {["get_deferred_fields"; "refresh_from_db"; "summary"]};
     items :=
       if models_manager env
       then {["id"; "title"; "author"; "tags"; "get_deferred_fields";
              "refresh_from_db"; "summary"; "display_name"; "pk"]}
       else {["id"; "title"; "author"; "tags"; "objects";
              "get_deferred_fields"; "refresh_from_db"; "summary";
              "display_name"; "pk"]};
     properties := {["display_name"; "pk"]} |}.


(** A model with a generic foreign key [content_object]: the framework lists
    it among the declared entries and among the virtual fields. *)
Definition tagged_item_options : Options :=
  options_of
    [plain_field "tag"; foreign_key "content_type"; plain_field "object_id";
     generic_foreign_key_field "content_object"]
    [generic_foreign_key_field "content_object"].

Definition tagged_item : ClassObj :=
  {| dir := ["_meta"; "content_object"; "content_type"; "objects"];
     namespace := members [
       ("_meta", PyOptions tagged_item_options);
       ("content_object", PyDataDescriptor);
       ("content_type", PyDataDescriptor);
       ("objects", PyManager)] |}.

Definition tagged_item_inspector : InspectModel :=
  {| model := AClass tagged_item;
     fields := {["tag"; "object_id"; "content_object"]};
     relation_fields := {["content_type"; "content_object"]};
     many_fields := ∅;
     attributes := ∅;
     methods := ∅;
     items := {["tag"; "object_id"; "content_object"; "content_type"]};
     properties := ∅ |}.

Definition tagged_item_inspector19 : InspectModel :=
  {| model := AClass tagged_item;
     fields := {["tag"; "object_id"; "content_object"]};
     relation_fields := {["content_type"]};
     many_fields := ∅;
     attributes := ∅;
     methods := ∅;
     items := {["tag"; "object_id"; "content_object"; "content_type"]};
     properties := ∅ |}.

Definition resize : PyObject :=
  method_of ["self"; "width"; "height"] (Some [DInt 100]).

Definition photo : ClassObj :=
  {| dir := ["_meta"; "resize"; "rotate"];
     namespace := members [
       ("_meta", PyOptions (options_of [plain_field "caption"] []));
       ("resize", resize);
       ("rotate", method_of ["self"; "degrees"] (Some [DInt 90]))] |}.

Definition photo_inspector : InspectModel :=
  {| model := AClass photo;
     fields := {["caption"]};
     relation_fields := ∅;
     many_fields := ∅;
     attributes := ∅;
     methods := {["rotate"]};
     items := {["caption"; "rotate"]};
     properties := ∅ |}.

(** An instance of [photo]: on the instance [dir] also lists the instance
    attributes, and reading a name gives the stored value. *)
Definition a_photo : InstanceObj :=
  {| instance_class := photo;
     instance_dir := ["_meta"; "caption"; "id"; "resize"; "rotate"];
     instance_namespace := members [
       ("_meta", PyOptions (options_of [plain_field "caption"] []));
       ("caption", PyData true);
       ("id", PyData true);
       ("resize", resize);
       ("rotate", method_of ["self"; "degrees"] (Some [DInt 90]))] |}.

(** The class [photo] with its names listed in another order, one twice. *)
Definition photo_shuffled : ClassObj :=
  {| dir := ["rotate"; "resize"; "_meta"; "rotate"];
     namespace := namespace photo |}.

(** A class with a function without parameters and a method whose receiver
    has a default: [def now()] and [def ping(self=None)]. *)
Definition stamp : ClassObj :=
  {| dir := ["now"; "ping"; "touch"];
     namespace := members [
       ("now", PyFunction (function_of [] None));
       ("ping", method_of ["self"] (Some [DNone]));
       ("touch", method_of ["self"] None)] |}.

Definition stamp_inspector : InspectModel :=
  {| model := AClass stamp;
     fields := ∅;
     relation_fields := ∅;
     many_fields := ∅;
     attributes := ∅;
     methods := {["touch"]};
     items := {["touch"]};
     properties := ∅ |}.

(** An author with a name, a foreign key, a many-to-many field, and two
    reverse relations: the books that point at it and its one profile. *)
Definition author_options : Options :=
  options_of
    [plain_field "name"; foreign_key "publisher"; many_to_many_field "awards";
     reverse_relation "book" "book_set" (foreign_key "author");
     reverse_relation "profile" "profile" (one_to_one_field "author")]
    [].

Definition author : ClassObj :=
  {| dir := ["_meta"; "awards"; "book_set"; "profile"; "publisher"];
     namespace := members [
       ("_meta", PyOptions author_options);
       ("awards", PyDataDescriptor);
       ("book_set", PyDataDescriptor);
       ("profile", PyDataDescriptor);
       ("publisher", PyDataDescriptor)] |}.

Definition author_inspector : InspectModel :=
  {| model := AClass author;
     fields := {["name"]};
     relation_fields := {["publisher"; "profile"]};
     many_fields := {["awards"; "book_set"]};
     attributes := ∅;
     methods := ∅;
     items := {["name"; "publisher"; "profile"; "awards"; "book_set"]};
     properties := ∅ |}.

Definition order : ClassObj :=
  {| dir := ["_meta"; "save"];
     namespace := members [
       ("_meta", PyOptions (options_of [plain_field "total"] []));
       ("save", method_of ["self"] None)] |}.

Definition order_inspector : InspectModel :=
  {| model := AClass order;
     fields := {["total"]};
     relation_fields := ∅;
     many_fields := ∅;
     attributes := ∅;
     methods := ∅;
     items := {["total"]};
     properties := ∅ |}.

Definition no_internal_names (i : InspectModel) : Prop :=
  ∀ t n, n ∈ item_type_get t i → startswith n "_" = false.

Definition account : ClassObj :=
  {| dir := ["_meta"; "_secret"; "balance"];
     namespace := members [
       ("_meta", PyOptions (options_of [plain_field "owner"] []));
       ("_secret", PyProperty);
       ("balance", PyProperty)] |}.

Definition account_inspector : InspectModel :=
  {| model := AClass account;
     fields := {["owner"]};
     relation_fields := ∅;
     many_fields := ∅;
     attributes := ∅;
     methods := ∅;
     items := {["owner"; "_secret"; "balance"]};
     properties := {["_secret"; "balance"]} |}.


Definition point : ClassObj :=
  {| dir := ["__init__"; "norm"; "origin"; "x"];
     namespace := members [
       ("__init__", method_of ["self"; "x"] None);
       ("norm", method_of ["self"] None);
       ("origin", PyData true);
       ("x", PyProperty)] |}.

Definition point_inspector : InspectModel :=
  {| model := AClass point;
     fields := ∅;
     relation_fields := ∅;
     many_fields := ∅;
     attributes := {["origin"]};
     methods := {["norm"]};
     items := {["origin"; "norm"; "x"]};
     properties := {["x"]} |}.



(** ** The sets as objects of a store *)

(** The seven sets of an inspector are Python [set] objects: [set()] makes
    a new one, an attribute of the inspector holds a reference to one, and
    [_add_item(item, item_type)] receives such a reference and mutates the
    object behind it.  A store is the list of the set objects made so far;
    a reference is a position in it. *)
Definition set_new (h : list (gset string)) : nat * list (gset string) :=
  (length h, (h ++ [∅])%list).

(** [s.add(x)] on the object behind [r]. *)
Definition set_add (r : nat) (x : string) (h : list (gset string))
  : list (gset string) :=
  alter (λ s, {[x]} ∪ s) r h.

Definition set_read (r : nat) (h : list (gset string)) : gset string :=
  default ∅ (h !! r).

(** [x in s] on the object behind [r]. *)
Definition set_contains (r : nat) (x : string) (h : list (gset string))
  : bool :=
  bool_decide (x ∈ set_read r h).

(** The attributes of an inspector object: the model and seven references. *)
Record InspectModelObject : Type := {
  model_attr : ModelRef;
  fields_attr : nat;
  relation_fields_attr : nat;
  many_fields_attr : nat;
  attributes_attr : nat;
  methods_attr : nat;
  items_attr : nat;
  properties_attr : nat;
}.

Definition bind_fields (r : nat) (self : InspectModelObject)
  : InspectModelObject :=
  {| model_attr := model_attr self; fields_attr := r;
     relation_fields_attr := relation_fields_attr self;
     many_fields_attr := many_fields_attr self;
     attributes_attr := attributes_attr self;
     methods_attr := methods_attr self; items_attr := items_attr self;
     properties_attr := properties_attr self |}.

Definition bind_relation_fields (r : nat) (self : InspectModelObject)
  : InspectModelObject :=
  {| model_attr := model_attr self; fields_attr := fields_attr self;
     relation_fields_attr := r;
     many_fields_attr := many_fields_attr self;
     attributes_attr := attributes_attr self;
     methods_attr := methods_attr self; items_attr := items_attr self;
     properties_attr := properties_attr self |}.

Definition bind_many_fields (r : nat) (self : InspectModelObject)
  : InspectModelObject :=
  {| model_attr := model_attr self; fields_attr := fields_attr self;
     relation_fields_attr := relation_fields_attr self;
     many_fields_attr := r;
     attributes_attr := attributes_attr self;
     methods_attr := methods_attr self; items_attr := items_attr self;
     properties_attr := properties_attr self |}.

Definition bind_attributes (r : nat) (self : InspectModelObject)
  : InspectModelObject :=
  {| model_attr := model_attr self; fields_attr := fields_attr self;
     relation_fields_attr := relation_fields_attr self;
     many_fields_attr := many_fields_attr self;
     attributes_attr := r;
     methods_attr := methods_attr self; items_attr := items_attr self;
     properties_attr := properties_attr self |}.

Definition bind_methods (r : nat) (self : InspectModelObject)
  : InspectModelObject :=
  {| model_attr := model_attr self; fields_attr := fields_attr self;
     relation_fields_attr := relation_fields_attr self;
     many_fields_attr := many_fields_attr self;
     attributes_attr := attributes_attr self;
     methods_attr := r; items_attr := items_attr self;
     properties_attr := properties_attr self |}.

Definition bind_properties (r : nat) (self : InspectModelObject)
  : InspectModelObject :=
  {| model_attr := model_attr self; fields_attr := fields_attr self;
     relation_fields_attr := relation_fields_attr self;
     many_fields_attr := many_fields_attr self;
     attributes_attr := attributes_attr self;
     methods_attr := methods_attr self; items_attr := items_attr self;
     properties_attr := r |}.

(** [_add_item(self, item, item_type)] on the store: [item_type] is the
    reference the caller read from one of the receiver's attributes. *)
Definition add_item_obj (self : InspectModelObject) (item : string)
    (item_type : nat) (h : list (gset string)) : list (gset string) :=
  let h := set_add item_type item h in
  set_add (items_attr self) item h.

Definition update_fields_obj_body (self : InspectModelObject) (opts : Options)
    (f : string) (h : list (gset string)) : result (list (gset string)) :=
  match get_field opts f with
  | None => Raise FieldDoesNotExist
  | Some field0 =>
      let direct := negb (auto_created field0) || concrete field0 in
      let m2m := many_to_many field0 in
      if negb direct then
        match get_accessor_name field0 with
        | None => Raise AttributeError
        | Some name0 =>
            match field field0 with
            | None => Raise AttributeError
            | Some field1 =>
                match rel field1 with
                | RelObj r =>
                    if multiple r
                    then Ok (add_item_obj self name0 (many_fields_attr self) h)
                    else Ok (add_item_obj self name0
                               (relation_fields_attr self) h)
                | RelNone | RelMissing => Raise AttributeError
                end
            end
        end
      else
        let name0 := name field0 in
        match rel field0 with
        | RelMissing => Raise AttributeError
        | RelObj r =>
            if has_through r
            then Ok (add_item_obj self name0 (many_fields_attr self) h)
            else Ok (add_item_obj self name0 (relation_fields_attr self) h)
        | RelNone => Ok (add_item_obj self name0 (fields_attr self) h)
        end
  end.

Definition virtual_fields_obj_body (self : InspectModelObject) (f : Field)
    (h : list (gset string)) : result (list (gset string)) :=
  if generic_foreign_key f
  then Ok (add_item_obj self (name f) (relation_fields_attr self) h)
  else Ok h.

Definition update_generic_foreign_keys_obj (env : Env)
    (self : InspectModelObject) (opts : Options) (h : list (gset string))
  : result (list (gset string)) :=
  match import_GenericForeignKey env with
  | Ok _ => for_each (virtual_fields opts) (virtual_fields_obj_body self) h
  | Raise ImportError => Ok h
  | Raise e => Raise e
  end.

Definition update_fields_obj (env : Env) (self : InspectModelObject)
    (h : list (gset string))
  : result (InspectModelObject * list (gset string)) :=
  let '(r, h) := set_new h in
  let self := bind_fields r self in
  let '(r, h) := set_new h in
  let self := bind_relation_fields r self in
  let '(r, h) := set_new h in
  let self := bind_many_fields r self in
  opts ←! getattr (model_attr self) "_meta" PyNone;
  if truthy opts then
    match opts with
    | PyOptions o =>
        let opts_names := map name (get_fields o) in
        h ←! for_each opts_names (update_fields_obj_body self o) h;
        h ←! update_generic_foreign_keys_obj env self o h;
        Ok (self, h)
    | _ => Raise AttributeError
    end
  else Ok (self, h).

Definition update_attributes_obj_body (env : Env) (self : InspectModelObject)
    (a : string) (h : list (gset string)) : result (list (gset string)) :=
  if startswith a "_" || set_contains (fields_attr self) a h then Ok h
  else
    item ←! getattr (model_attr self) a PyNone;
    skip ←! is_manager env item;
    if skip then Ok h
    else
      answers ←! comprehension ALL_BUT_ATTRIBUTES item;
      if any answers then Ok h
      else Ok (add_item_obj self a (attributes_attr self) h).

Definition update_attributes_obj (env : Env) (self : InspectModelObject)
    (h : list (gset string))
  : result (InspectModelObject * list (gset string)) :=
  let '(r, h) := set_new h in
  let self := bind_attributes r self in
  h ←! for_each (dir_of (model_attr self))
         (update_attributes_obj_body env self) h;
  Ok (self, h).

Definition update_methods_obj_body (self : InspectModelObject) (m : string)
    (h : list (gset string)) : result (list (gset string)) :=
  if startswith m "_" || set_contains (fields_attr self) m h then Ok h
  else if bool_decide (m ∈ DJANGO_GENERATED_METHODS) then Ok h
  else
    func ←! getattr (model_attr self) m PyNone;
    b ←! is_method_without_args func;
    if b then Ok (add_item_obj self m (methods_attr self) h) else Ok h.

Definition update_methods_obj (self : InspectModelObject)
    (h : list (gset string))
  : result (InspectModelObject * list (gset string)) :=
  let '(r, h) := set_new h in
  let self := bind_methods r self in
  h ←! for_each (dir_of (model_attr self)) (update_methods_obj_body self) h;
  Ok (self, h).

Definition update_properties_obj_body (self : InspectModelObject)
    (name0 : string) (h : list (gset string))
  : result (list (gset string)) :=
  v ←! getattr (model_attr self) name0 PyNone;
  if isinstance_property v
  then Ok (add_item_obj self name0 (properties_attr self) h)
  else Ok h.

Definition update_properties_obj (self : InspectModelObject)
    (h : list (gset string))
  : result (InspectModelObject * list (gset string)) :=
  let '(r, h) := set_new h in
  let self := bind_properties r self in
  h ←! for_each (dir_of (model_attr self))
         (update_properties_obj_body self) h;
  Ok (self, h).

(** [InspectModel(model)] on the store: seven calls of [set()], in the
    order of the source, then the four passes. *)
Definition init_obj (env : Env) (model0 : ModelRef) (h : list (gset string))
  : result (InspectModelObject * list (gset string)) :=
  let self_model := model0 in
  let self_model :=
    if negb (isclass_ref model0) then AClass (class_of model0)
    else self_model in
  let '(r_fields, h) := set_new h in
  let '(r_relation_fields, h) := set_new h in
  let '(r_many_fields, h) := set_new h in
  let '(r_attributes, h) := set_new h in
  let '(r_methods, h) := set_new h in
  let '(r_items, h) := set_new h in
  let '(r_properties, h) := set_new h in
  let self :=
    {| model_attr := self_model; fields_attr := r_fields;
       relation_fields_attr := r_relation_fields;
       many_fields_attr := r_many_fields;
       attributes_attr := r_attributes; methods_attr := r_methods;
       items_attr := r_items; properties_attr := r_properties |} in
  p ←! update_fields_obj env self h;
  p ←! update_attributes_obj env p.1 p.2;
  p ←! update_methods_obj p.1 p.2;
  update_properties_obj p.1 p.2.

(** The reference an inspector object holds for a set. *)
Definition item_type_ref (t : ItemType) (self : InspectModelObject) : nat :=
  match t with
  | Fields => fields_attr self
  | RelationFields => relation_fields_attr self
  | ManyFields => many_fields_attr self
  | Attributes => attributes_attr self
  | Methods => methods_attr self
  | Properties => properties_attr self
  end.

Definition references (self : InspectModelObject) : list nat :=
  [fields_attr self; relation_fields_attr self; many_fields_attr self;
   attributes_attr self; methods_attr self; items_attr self;
   properties_attr self].

(** An inspector object in a store stands for a functional inspector: its
    seven references are distinct live objects that hold the seven sets. *)
Definition represents (self : InspectModelObject) (h : list (gset string))
    (s : InspectModel) : Prop :=
  model_attr self = model s ∧
  (∀ t, set_read (item_type_ref t self) h = item_type_get t s) ∧
  set_read (items_attr self) h = items s ∧
  NoDup (references self) ∧
  Forall (λ r, r < length h) (references self).

(** The position of a set's reference in [references]. *)
Definition ref_index (t : ItemType) : nat :=
  match t with
  | Fields => 0
  | RelationFields => 1
  | ManyFields => 2
  | Attributes => 3
  | Methods => 4
  | Properties => 6
  end.

(** What an iteration does to the store once its decision is taken. *)
Definition apply_choice (self : InspectModelObject)
    (o : option (string * ItemType)) (h : list (gset string))
  : list (gset string) :=
  match o with
  | Some (n, t) => add_item_obj self n (item_type_ref t self) h
  | None => h
  end.

(** [self.<set> = set()]: rebinding one of the six attributes to a new
    object on the store, and emptying that set in the functional model. *)
Definition bind_ref (t : ItemType) (r : nat) (self : InspectModelObject)
  : InspectModelObject :=
  match t with
  | Fields => bind_fields r self
  | RelationFields => bind_relation_fields r self
  | ManyFields => bind_many_fields r self
  | Attributes => bind_attributes r self
  | Methods => bind_methods r self
  | Properties => bind_properties r self
  end.

Definition clear_type (t : ItemType) (s : InspectModel) : InspectModel :=
  match t with
  | Fields =>
      {| model := model s; fields := ∅;
         relation_fields := relation_fields s;
         many_fields := many_fields s; attributes := attributes s;
         methods := methods s; items := items s;
         properties := properties s |}
  | RelationFields =>
      {| model := model s; fields := fields s; relation_fields := ∅;
         many_fields := many_fields s; attributes := attributes s;
         methods := methods s; items := items s;
         properties := properties s |}
  | ManyFields =>
      {| model := model s; fields := fields s;
         relation_fields := relation_fields s; many_fields := ∅;
         attributes := attributes s; methods := methods s;
         items := items s; properties := properties s |}
  | Attributes => reset_attributes s
  | Methods => reset_methods s
  | Properties => reset_properties s
  end.

(** A step from [(self, h)] to [(self', h')] that makes new objects and
    writes only to objects [self] refers to or to new ones. *)
Definition extends (self : InspectModelObject) (h : list (gset string))
    (self' : InspectModelObject) (h' : list (gset string)) : Prop :=
  (length h ≤ length h')%nat ∧
  (∀ r : nat, r ∈ references self' →
     r ∈ references self ∨ (length h ≤ r)%nat) ∧
  (∀ r : nat, (r < length h)%nat → (r ∉ references self) →
     h' !! r = h !! r).

(** The store run does what the functional run does. *)
Definition simulates (pure : result InspectModel)
    (obj : result (InspectModelObject * list (gset string)))
    (self : InspectModelObject) (h : list (gset string)) : Prop :=
  match pure with
  | Ok s' =>
      ∃ self' h', obj = Ok (self', h') ∧ represents self' h' s' ∧
                  extends self h self' h'
  | Raise e => obj = Raise e
  end.

(** The sets of an inspector object, read in a store. *)
Definition sets_of (self : InspectModelObject) (h : list (gset string))
  : list (gset string) :=
  (λ r, set_read r h) <$> references self.

(** A loop iteration on the store writes only to objects [self] refers
    to, and makes none. *)
Definition untouched (self : InspectModelObject) (h h' : list (gset string))
  : Prop :=
  length h' = length h ∧
  ∀ r : nat, (r ∉ references self) → h' !! r = h !! r.

(** One iteration, or one loop, on the store does what it does in the
    functional model. *)
Definition step_simulates (pure : result InspectModel)
    (obj : result (list (gset string)))
    (self : InspectModelObject) (h : list (gset string)) : Prop :=
  match pure with
  | Ok s' => ∃ h', obj = Ok h' ∧ represents self h' s' ∧ untouched self h h'
  | Raise e => obj = Raise e
  end.

(** The inspector object and the store that constructing an inspector of
    [photo] in an empty store leaves: the seven sets of [__init__], of which
    only [items] is still referred to, then the three of [update_fields] and
    one for each later pass. *)
Definition photo_object : InspectModelObject :=
  {| model_attr := AClass photo; fields_attr := 7;
     relation_fields_attr := 8; many_fields_attr := 9;
     attributes_attr := 10; methods_attr := 11; items_attr := 5;
     properties_attr := 12 |}.

Definition photo_store : list (gset string) :=
  [∅; ∅; ∅; ∅; ∅; {["caption"; "rotate"]}; ∅;
   {["caption"]}; ∅; ∅; ∅; {["rotate"]}; ∅].

(** * Proofs *)



Lemma add_item_model n t s : model (_add_item n t s) = model s.
Proof. by destruct t. Qed.

Lemma add_item_items n t s : items (_add_item n t s) = {[n]} ∪ items s.
Proof. by destruct t. Qed.

Lemma add_item_same n t s :
  item_type_get t (_add_item n t s) = {[n]} ∪ item_type_get t s.
Proof. by destruct t. Qed.

Lemma add_item_other n t t' s :
  t' ≠ t → item_type_get t' (_add_item n t s) = item_type_get t' s.
Proof. by destruct t, t'. Qed.

Lemma elem_of_add_item n t t' x s :
  x ∈ item_type_get t' (_add_item n t s) ↔
  x ∈ item_type_get t' s ∨ (x = n ∧ t' = t).
Proof.
  destruct (decide (t' = t)) as [->|Hne].
  - rewrite add_item_same. set_solver.
  - rewrite add_item_other by done. naive_solver.
Qed.

(** ** Loops *)

Lemma bind_Ok {A B} (r : result A) (k : A → result B) b :
  bind r k = Ok b ↔ ∃ a, r = Ok a ∧ k a = Ok b.
Proof. destruct r; simpl; naive_solver. Qed.

Lemma for_each_ext {A S} (f g : A → S → result S) l s :
  (∀ x s, f x s = g x s) → for_each l f s = for_each l g s.
Proof.
  intros Hfg. revert s. induction l as [|x l IH]; intros s; simpl; [done|].
  rewrite Hfg. destruct (g x s); simpl; auto.
Qed.

Section add_chosen.
Context {A : Type}.
Variable choose : A → InspectModel → result (option (string * ItemType)).

Hypothesis choose_stable : ∀ x y n t s,
  choose x s = Ok (Some (n, t)) → choose y (_add_item n t s) = choose y s.

Lemma add_chosen_step x s s' :
  add_chosen choose x s = Ok s' →
  (∀ y, choose y s' = choose y s) ∧
  ((choose x s = Ok None ∧ s' = s) ∨
   (∃ n t, choose x s = Ok (Some (n, t)) ∧ s' = _add_item n t s)).
Proof.
  unfold add_chosen. intros (o & Ho & Hs)%bind_Ok.
  destruct o as [[n t]|]; simplify_eq; eauto 8.
Qed.

Lemma for_each_add_chosen l s s' :
  for_each l (add_chosen choose) s = Ok s' →
  model s' = model s ∧
  (∀ y, choose y s' = choose y s) ∧
  (∀ x, x ∈ l → ∃ o, choose x s = Ok o) ∧
  (∀ t n, n ∈ item_type_get t s' ↔
     n ∈ item_type_get t s ∨ ∃ x, x ∈ l ∧ choose x s = Ok (Some (n, t))) ∧
  (∀ n, n ∈ items s' ↔
     n ∈ items s ∨ ∃ x t, x ∈ l ∧ choose x s = Ok (Some (n, t))).
Proof.
  revert s. induction l as [|x l IH]; intros s; simpl.
  - intros [= ->]. set_solver.
  - intros (s1 & Hx & Hl)%bind_Ok.
    destruct (add_chosen_step _ _ _ Hx) as [Hst Hcase].
    destruct (IH _ Hl) as (Hm & Hch & Hdef & Hget & Hit).
    assert (model s1 = model s) as Hm1.
    { destruct Hcase as [[_ ->]|(n & t & _ & ->)]; [done|].
      apply add_item_model. }
    split; [congruence|].
    split; [intros y; by rewrite Hch|].
    split.
    { intros y [->|Hy]%elem_of_cons.
      - destruct Hcase as [[? _]|(n & t & ? & _)]; eauto.
      - destruct (Hdef y Hy) as [o Ho]. rewrite Hst in Ho. eauto. }
    split.
    + intros t n. rewrite Hget. split.
      * intros [Hn|(y & Hy & Hc)].
        -- destruct Hcase as [[_ ->]|(n' & t' & Hsome & ->)]; [by left|].
           apply elem_of_add_item in Hn as [Hn|[-> ->]]; [by left|].
           right. exists x. split; [left|done].
        -- right. exists y. rewrite <- Hst. split; [by right|done].
      * intros [Hn|(y & [->|Hy]%elem_of_cons & Hc)].
        -- left. destruct Hcase as [[_ ->]|(n' & t' & _ & ->)]; [done|].
           apply elem_of_add_item. by left.
        -- left. destruct Hcase as [[Hnone _]|(n' & t' & Hsome & ->)];
             [congruence|].
           apply elem_of_add_item. right. split; congruence.
        -- right. exists y. by rewrite Hst.
    + intros n. rewrite Hit. split.
      * intros [Hn|(y & t & Hy & Hc)].
        -- destruct Hcase as [[_ ->]|(n' & t' & Hsome & ->)]; [by left|].
           rewrite add_item_items in Hn.
           apply elem_of_union in Hn as [->%elem_of_singleton|Hn];
             [|by left].
           right. exists x, t'. split; [left|done].
        -- right. exists y, t. rewrite <- Hst. split; [by right|done].
      * intros [Hn|(y & t & [->|Hy]%elem_of_cons & Hc)].
        -- left. destruct Hcase as [[_ ->]|(n' & t' & _ & ->)]; [done|].
           rewrite add_item_items. apply elem_of_union. by right.
        -- left. destruct Hcase as [[Hnone _]|(n' & t' & Hsome & ->)];
             [congruence|].
           rewrite add_item_items. apply elem_of_union. left.
           apply elem_of_singleton. congruence.
        -- right. exists y, t. by rewrite Hst.
Qed.

Lemma for_each_add_chosen_total l s :
  (∀ x, x ∈ l → ∃ o, choose x s = Ok o) →
  ∃ s', for_each l (add_chosen choose) s = Ok s'.
Proof.
  revert s. induction l as [|x l IH]; intros s Hdef; simpl; [eauto|].
  destruct (Hdef x) as [o Ho]; [set_solver|].
  assert (∃ s1, add_chosen choose x s = Ok s1) as [s1 Hs1].
  { unfold add_chosen. rewrite Ho. simpl. eauto. }
  rewrite Hs1. simpl. apply IH. intros y Hy.
  destruct (add_chosen_step _ _ _ Hs1) as [Hst _]. rewrite Hst.
  apply Hdef. set_solver.
Qed.
End add_chosen.

Lemma update_fields_body_chosen opts f s :
  update_fields_body opts f s = add_chosen (choose_field opts) f s.
Proof.
  unfold update_fields_body, add_chosen, choose_field.
  destruct (get_field opts f) as [f0|]; [|done].
  destruct (negb _).
  - destruct (get_accessor_name f0); [|done].
    destruct (field f0) as [f1|]; [|done].
    destruct (rel f1) as [| |r]; try done. by destruct (multiple r).
  - destruct (rel f0) as [| |r]; try done. by destruct (has_through r).
Qed.

Lemma virtual_fields_body_chosen f s :
  virtual_fields_body f s = add_chosen choose_virtual_field f s.
Proof.
  unfold virtual_fields_body, add_chosen, choose_virtual_field.
  by destruct (generic_foreign_key f).
Qed.

Lemma update_attributes_body_chosen env a s :
  update_attributes_body env a s = add_chosen (choose_attribute env) a s.
Proof.
  unfold update_attributes_body, add_chosen, choose_attribute.
  destruct (_ || _); [done|].
  destruct (getattr (model s) a PyNone) as [item|e]; [|done].
  unfold is_manager, import_Manager.
  destruct (models_manager env); cbn [bind andb].
  - destruct (isinstance_Manager item); [done|].
    destruct (comprehension ALL_BUT_ATTRIBUTES item) as [answers|e];
      [|done].
    cbn [bind]. by destruct (any answers).
  - destruct (comprehension ALL_BUT_ATTRIBUTES item) as [answers|e];
      [|done].
    cbn [bind]. by destruct (any answers).
Qed.

Lemma update_methods_body_chosen m s :
  update_methods_body m s = add_chosen choose_method m s.
Proof.
  unfold update_methods_body, add_chosen, choose_method.
  destruct (_ || _); [done|]. destruct (bool_decide _); [done|].
  destruct (getattr (model s) m PyNone) as [func|e]; [|done]. cbn [bind].
  destruct (is_method_without_args func) as [[]|]; done.
Qed.

Lemma update_properties_body_chosen n s :
  update_properties_body n s = add_chosen choose_property n s.
Proof.
  unfold update_properties_body, add_chosen, choose_property.
  destruct (getattr (model s) n PyNone) as [v|e]; [|done]. cbn [bind].
  by destruct (isinstance_property v).
Qed.

(** A decision reads only [model] and [fields] of the receiver, and the
    dir loops never write [fields]. *)
Lemma choose_field_stable opts x y n t s :
  choose_field opts x s = Ok (Some (n, t)) →
  choose_field opts y (_add_item n t s) = choose_field opts y s.
Proof. done. Qed.

Lemma choose_virtual_field_stable (x y : Field) n t s :
  choose_virtual_field x s = Ok (Some (n, t)) →
  choose_virtual_field y (_add_item n t s) = choose_virtual_field y s.
Proof. done. Qed.

Lemma choose_attribute_inv env a s n t :
  choose_attribute env a s = Ok (Some (n, t)) → n = a ∧ t = Attributes.
Proof.
  unfold choose_attribute.
  destruct (_ || _); [discriminate|].
  destruct (getattr (model s) a PyNone) as [item|e]; [|discriminate].
  cbn [bind]. destruct (_ && _); [discriminate|].
  destruct (comprehension ALL_BUT_ATTRIBUTES item) as [answers|e];
    [|discriminate].
  cbn [bind]. destruct (any answers); intros [=]; auto.
Qed.

Lemma choose_method_inv m s n t :
  choose_method m s = Ok (Some (n, t)) → n = m ∧ t = Methods.
Proof.
  unfold choose_method.
  destruct (_ || _); [discriminate|].
  destruct (bool_decide _); [discriminate|].
  destruct (getattr (model s) m PyNone) as [func|e]; [|discriminate].
  cbn [bind].
  destruct (is_method_without_args func) as [[]|]; simpl; intros [=]; auto.
Qed.

Lemma choose_property_inv x s n t :
  choose_property x s = Ok (Some (n, t)) → n = x ∧ t = Properties.
Proof.
  unfold choose_property.
  destruct (getattr (model s) x PyNone) as [v|e]; [|discriminate].
  cbn [bind]. destruct (isinstance_property v); intros [=]; auto.
Qed.

Lemma choose_attribute_stable env x y n t s :
  choose_attribute env x s = Ok (Some (n, t)) →
  choose_attribute env y (_add_item n t s) = choose_attribute env y s.
Proof. by intros [_ ->]%choose_attribute_inv. Qed.

Lemma choose_method_stable x y n t s :
  choose_method x s = Ok (Some (n, t)) →
  choose_method y (_add_item n t s) = choose_method y s.
Proof. by intros [_ ->]%choose_method_inv. Qed.

Lemma choose_property_stable x y n t s :
  choose_property x s = Ok (Some (n, t)) →
  choose_property y (_add_item n t s) = choose_property y s.
Proof. by intros [_ ->]%choose_property_inv. Qed.

(** ** What a loop over [dir] leaves behind *)

Lemma dir_loop_spec (choose : string → InspectModel → result (option (string * ItemType)))
    (t0 : ItemType) (l : list string) (s0 s' : InspectModel) :
  (∀ x y n t s, choose x s = Ok (Some (n, t)) →
                choose y (_add_item n t s) = choose y s) →
  (∀ x s n t, choose x s = Ok (Some (n, t)) → n = x ∧ t = t0) →
  item_type_get t0 s0 = ∅ →
  for_each l (add_chosen choose) s0 = Ok s' →
  model s' = model s0 ∧
  (∀ t, t ≠ t0 → item_type_get t s' = item_type_get t s0) ∧
  (∀ n, n ∈ item_type_get t0 s' ↔ n ∈ l ∧ choose n s0 = Ok (Some (n, t0))) ∧
  (∀ n, n ∈ l → ∃ o, choose n s0 = Ok o) ∧
  items s' = items s0 ∪ item_type_get t0 s'.
Proof.
  intros Hstable Hinv Hempty Hloop.
  destruct (for_each_add_chosen choose Hstable l s0 s' Hloop)
    as (Hm & _ & Hdef & Hget & Hit).
  assert (∀ n, n ∈ item_type_get t0 s' ↔
               n ∈ l ∧ choose n s0 = Ok (Some (n, t0))) as Hchar.
  { intros n. rewrite Hget, Hempty. split.
    - intros [[]%not_elem_of_empty|(x & Hx & Hc)].
      destruct (Hinv _ _ _ _ Hc) as [-> _]. done.
    - intros [Hn Hc]. right. eauto. }
  split; [done|]. split.
  { intros t Ht. apply set_eq. intros n. rewrite Hget. split; [|auto].
    intros [Hn|(x & _ & Hc)]; [done|].
    destruct (Hinv _ _ _ _ Hc) as [_ ->]. done. }
  split; [done|]. split; [done|].
  apply set_eq. intros n. rewrite Hit, elem_of_union, Hchar. split.
  - intros [Hn|(x & t & Hx & Hc)]; [by left|].
    destruct (Hinv _ _ _ _ Hc) as [-> ->]. by right.
  - intros [Hn|[Hn Hc]]; [by left|]. right. eauto.
Qed.

Lemma choose_attribute_ext env n s s' :
  model s = model s' → fields s = fields s' →
  choose_attribute env n s = choose_attribute env n s'.
Proof. unfold choose_attribute. by intros -> ->. Qed.

Lemma choose_method_ext n s s' :
  model s = model s' → fields s = fields s' →
  choose_method n s = choose_method n s'.
Proof. unfold choose_method. by intros -> ->. Qed.

Lemma choose_property_ext n s s' :
  model s = model s' → choose_property n s = choose_property n s'.
Proof. unfold choose_property. by intros ->. Qed.

Lemma update_attributes_spec env s s' :
  update_attributes env s = Ok s' →
  model s' = model s ∧
  (∀ t, t ≠ Attributes → item_type_get t s' = item_type_get t s) ∧
  (∀ n, n ∈ attributes s' ↔
     n ∈ dir_of (model s) ∧
     choose_attribute env n s = Ok (Some (n, Attributes))) ∧
  (∀ n, n ∈ dir_of (model s) → ∃ o, choose_attribute env n s = Ok o) ∧
  items s' = items s ∪ attributes s'.
Proof.
  unfold update_attributes.
  rewrite (for_each_ext _ _ _ _ (update_attributes_body_chosen env)).
  intros H.
  apply (dir_loop_spec _ Attributes) in H
    as (Hm & Hother & Hchar & Hdef & Hit);
    [|apply choose_attribute_stable|apply choose_attribute_inv|done].
  split; [done|]. split; [|split; [|split; [|done]]].
  - intros t Ht. rewrite (Hother t Ht). by destruct t.
  - intros n. apply Hchar.
  - intros n. apply Hdef.
Qed.

Lemma update_attributes_total env s :
  (∀ n, n ∈ dir_of (model s) → ∃ o, choose_attribute env n s = Ok o) →
  ∃ s', update_attributes env s = Ok s'.
Proof.
  intros Hdef. unfold update_attributes.
  rewrite (for_each_ext _ _ _ _ (update_attributes_body_chosen env)).
  apply for_each_add_chosen_total; [apply choose_attribute_stable|].
  intros n Hn. apply (Hdef n Hn).
Qed.

Lemma update_methods_spec s s' :
  update_methods s = Ok s' →
  model s' = model s ∧
  (∀ t, t ≠ Methods → item_type_get t s' = item_type_get t s) ∧
  (∀ n, n ∈ methods s' ↔
     n ∈ dir_of (model s) ∧ choose_method n s = Ok (Some (n, Methods))) ∧
  (∀ n, n ∈ dir_of (model s) → ∃ o, choose_method n s = Ok o) ∧
  items s' = items s ∪ methods s'.
Proof.
  unfold update_methods.
  rewrite (for_each_ext _ _ _ _ update_methods_body_chosen).
  intros H.
  apply (dir_loop_spec _ Methods) in H
    as (Hm & Hother & Hchar & Hdef & Hit);
    [|apply choose_method_stable|apply choose_method_inv|done].
  split; [done|]. split; [|split; [|split; [|done]]].
  - intros t Ht. rewrite (Hother t Ht). by destruct t.
  - intros n. apply Hchar.
  - intros n. apply Hdef.
Qed.

Lemma update_methods_total s :
  (∀ n, n ∈ dir_of (model s) → ∃ o, choose_method n s = Ok o) →
  ∃ s', update_methods s = Ok s'.
Proof.
  intros Hdef. unfold update_methods.
  rewrite (for_each_ext _ _ _ _ update_methods_body_chosen).
  apply for_each_add_chosen_total; [apply choose_method_stable|].
  intros n Hn. apply (Hdef n Hn).
Qed.

Lemma update_properties_spec s s' :
  update_properties s = Ok s' →
  model s' = model s ∧
  (∀ t, t ≠ Properties → item_type_get t s' = item_type_get t s) ∧
  (∀ n, n ∈ properties s' ↔
     n ∈ dir_of (model s) ∧
     choose_property n s = Ok (Some (n, Properties))) ∧
  (∀ n, n ∈ dir_of (model s) → ∃ o, choose_property n s = Ok o) ∧
  items s' = items s ∪ properties s'.
Proof.
  unfold update_properties.
  rewrite (for_each_ext _ _ _ _ update_properties_body_chosen).
  intros H.
  apply (dir_loop_spec _ Properties) in H
    as (Hm & Hother & Hchar & Hdef & Hit);
    [|apply choose_property_stable|apply choose_property_inv|done].
  split; [done|]. split; [|split; [|split; [|done]]].
  - intros t Ht. rewrite (Hother t Ht). by destruct t.
  - intros n. apply Hchar.
  - intros n. apply Hdef.
Qed.

Lemma update_properties_total s :
  (∀ n, n ∈ dir_of (model s) → ∃ o, choose_property n s = Ok o) →
  ∃ s', update_properties s = Ok s'.
Proof.
  intros Hdef. unfold update_properties.
  rewrite (for_each_ext _ _ _ _ update_properties_body_chosen).
  apply for_each_add_chosen_total; [apply choose_property_stable|].
  intros n Hn. apply (Hdef n Hn).
Qed.

Lemma choose_field_type o f s n t :
  choose_field o f s = Ok (Some (n, t)) → is_field_type t = true.
Proof.
  unfold choose_field.
  destruct (get_field o f) as [f0|]; [|discriminate].
  destruct (negb _).
  - destruct (get_accessor_name f0); [|discriminate].
    destruct (field f0) as [f1|]; [|discriminate].
    destruct (rel f1) as [| |r]; try discriminate.
    destruct (multiple r); intros ?; by simplify_eq.
  - destruct (rel f0) as [| |r]; try discriminate.
    + intros ?; by simplify_eq.
    + destruct (has_through r); intros ?; by simplify_eq.
Qed.

Lemma item_type_get_reset_fields t s :
  item_type_get t (reset_fields s) =
  if is_field_type t then ∅ else item_type_get t s.
Proof. by destruct t. Qed.

Lemma update_generic_foreign_keys_spec env o s s' :
  update_generic_foreign_keys env o s = Ok s' →
  model s' = model s ∧
  (∀ t n, n ∈ item_type_get t s' ↔
     n ∈ item_type_get t s ∨ (t = RelationFields ∧ generic_name env o n)) ∧
  (∀ n, n ∈ items s' ↔ n ∈ items s ∨ generic_name env o n).
Proof.
  unfold update_generic_foreign_keys, import_GenericForeignKey, generic_name.
  destruct (contenttypes_generic env).
  - rewrite (for_each_ext _ _ _ _ virtual_fields_body_chosen).
    intros H.
    apply for_each_add_chosen in H as (Hm & _ & _ & Hget & Hit);
      [|apply choose_virtual_field_stable].
    split; [done|]. split.
    + intros t n. rewrite Hget. unfold choose_virtual_field. split.
      * intros [?|(v & Hv & Hc)]; [by left|]. right.
        destruct (generic_foreign_key v) eqn:Hg; simplify_eq. eauto 8.
      * intros [?|(-> & _ & v & Hv & Hg & <-)]; [by left|]. right.
        exists v. by rewrite Hg.
    + intros n. rewrite Hit. unfold choose_virtual_field. split.
      * intros [?|(v & t & Hv & Hc)]; [by left|]. right.
        destruct (generic_foreign_key v) eqn:Hg; simplify_eq. eauto 8.
      * intros [?|(_ & v & Hv & Hg & <-)]; [by left|]. right.
        exists v, RelationFields. by rewrite Hg.
  - intros [= ->]. naive_solver.
Qed.

Lemma update_generic_foreign_keys_total env o s :
  ∃ s', update_generic_foreign_keys env o s = Ok s'.
Proof.
  unfold update_generic_foreign_keys, import_GenericForeignKey.
  destruct (contenttypes_generic env); [|eauto].
  rewrite (for_each_ext _ _ _ _ virtual_fields_body_chosen).
  apply for_each_add_chosen_total; [apply choose_virtual_field_stable|].
  unfold choose_virtual_field. eauto.
Qed.

Lemma getattr_Options obj n o :
  getattr obj n PyNone = Ok (PyOptions o) ↔
  namespace_of obj !! n = Some (Value (PyOptions o)).
Proof.
  unfold getattr. destruct (namespace_of obj !! n) as [[v| |]|]; naive_solver.
Qed.

Lemma update_fields_no_meta env s v :
  getattr (model s) "_meta" PyNone = Ok v → truthy v = false →
  update_fields env s = Ok (reset_fields s).
Proof.
  intros Hv Ht. unfold update_fields.
  change (model (reset_fields s)) with (model s).
  rewrite Hv. cbn [bind]. by rewrite Ht.
Qed.

Lemma update_fields_options env s o :
  namespace_of (model s) !! "_meta" = Some (Value (PyOptions o)) →
  update_fields env s =
  (s1 ←! for_each (map name (get_fields o)) (add_chosen (choose_field o))
           (reset_fields s);
   update_generic_foreign_keys env o s1).
Proof.
  intros Hmeta%getattr_Options. unfold update_fields.
  change (model (reset_fields s)) with (model s).
  rewrite Hmeta. cbn [bind truthy].
  by rewrite (for_each_ext _ _ _ _ (update_fields_body_chosen o)).
Qed.

Lemma update_fields_cases env s s' :
  update_fields env s = Ok s' →
  (∃ v, getattr (model s) "_meta" PyNone = Ok v ∧ truthy v = false ∧
        s' = reset_fields s) ∨
  (∃ o, namespace_of (model s) !! "_meta" = Some (Value (PyOptions o))).
Proof.
  intros H. unfold update_fields in H.
  change (model (reset_fields s)) with (model s) in H.
  destruct (getattr (model s) "_meta" PyNone) as [v|e] eqn:Hv;
    [|discriminate].
  cbn [bind] in H. destruct (truthy v) eqn:Ht.
  - right. destruct v; try discriminate. exists o.
    by apply getattr_Options.
  - left. exists v. by simplify_eq.
Qed.

(** With a metadata descriptor: the three field sets hold what the loop
    over the declared entries chose and what the generic scan added. *)
Lemma update_fields_options_spec env s s' o :
  namespace_of (model s) !! "_meta" = Some (Value (PyOptions o)) →
  update_fields env s = Ok s' →
  model s' = model s ∧
  (∀ f, f ∈ get_fields o → ∃ c, choose_field o (name f) s = Ok c) ∧
  (∀ t n, n ∈ item_type_get t s' ↔
     (is_field_type t = false ∧ n ∈ item_type_get t s) ∨
     (∃ f, f ∈ get_fields o ∧ choose_field o (name f) s = Ok (Some (n, t))) ∨
     (t = RelationFields ∧ generic_name env o n)) ∧
  (∀ n, n ∈ items s' ↔
     n ∈ items s ∨
     (∃ f t, f ∈ get_fields o ∧ choose_field o (name f) s = Ok (Some (n, t))) ∨
     generic_name env o n).
Proof.
  intros Hmeta. rewrite (update_fields_options _ _ _ Hmeta).
  intros (s1 & Hloop & Hgen)%bind_Ok.
  apply for_each_add_chosen in Hloop as (Hm1 & _ & Hdef & Hget & Hit);
    [|apply choose_field_stable].
  apply update_generic_foreign_keys_spec in Hgen as (Hm2 & Hget2 & Hit2).
  split; [by rewrite Hm2, Hm1|]. split.
  { intros f Hf. apply (Hdef (name f)). apply list_elem_of_fmap. eauto. }
  split.
  - intros t n. rewrite Hget2, Hget, item_type_get_reset_fields. split.
    + intros [[Hn|(x & Hx & Hc)]|Hg]; [| |by auto].
      * destruct (is_field_type t); [set_solver|]. by left.
      * apply list_elem_of_fmap in Hx as (f & -> & Hf). right. left. eauto.
    + intros [[Ht Hn]|[(f & Hf & Hc)|Hg]]; [| |by auto].
      * left. left. by rewrite Ht.
      * left. right. exists (name f). split; [|done].
        apply list_elem_of_fmap. eauto.
  - intros n. rewrite Hit2, Hit. split.
    + intros [[Hn|(x & t & Hx & Hc)]|Hg]; [by auto| |by auto].
      apply list_elem_of_fmap in Hx as (f & -> & Hf). right. left. eauto.
    + intros [Hn|[(f & t & Hf & Hc)|Hg]]; [by auto| |by auto].
      left. right. exists (name f), t. split; [|done].
      apply list_elem_of_fmap. eauto.
Qed.

Lemma update_fields_spec env s s' :
  update_fields env s = Ok s' →
  model s' = model s ∧
  (∀ t, is_field_type t = false →
        item_type_get t s' = item_type_get t s) ∧
  (∀ n, n ∈ items s' ↔
     n ∈ items s ∨ n ∈ fields s' ∨ n ∈ relation_fields s' ∨
     n ∈ many_fields s').
Proof.
  intros H.
  destruct (update_fields_cases _ _ _ H) as [(v & _ & _ & ->)|[o Hmeta]].
  { split; [done|]. split.
    - intros t Ht. rewrite item_type_get_reset_fields. by rewrite Ht.
    - intros n. simpl. set_solver. }
  destruct (update_fields_options_spec _ _ _ _ Hmeta H)
    as (Hm & _ & Hget & Hit).
  split; [done|]. split.
  - intros t Ht. apply set_eq. intros n. rewrite Hget. split.
    + intros [[_ ?]|[(f & _ & Hc)|[-> _]]]; [done| |].
      * apply choose_field_type in Hc. congruence.
      * discriminate.
    + intros Hn. by left.
  - intros n. rewrite Hit.
    pose proof (Hget Fields n) as HF.
    pose proof (Hget RelationFields n) as HR.
    pose proof (Hget ManyFields n) as HM. simpl in HF, HR, HM.
    rewrite HF, HR, HM. split.
    + intros [Hn|[(f & t & Hf & Hc)|Hg]]; [by left| |].
      * right. pose proof (choose_field_type _ _ _ _ _ Hc).
        destruct t; try discriminate.
        -- left. right. left. by exists f.
        -- right. left. right. left. by exists f.
        -- right. right. right. left. by exists f.
      * right. right. left. right. right. done.
    + intros [Hn|[HH|[HH|HH]]]; [by left| | |];
        destruct HH as [[Hft Hn]|[(f & Hf & Hc)|[Ht Hg]]];
        try discriminate;
        first [ by right; left; exists f; eexists | by right; right ].
Qed.

Lemma init_unfold env m :
  __init__ env m =
  (s ←! update_fields env (empty_inspector (class_of m));
   s ←! update_attributes env s;
   s ←! update_methods s;
   update_properties s).
Proof. by destruct m. Qed.

Lemma init_spec env m i :
  __init__ env m = Ok i →
  ∃ s1, update_fields env (empty_inspector (class_of m)) = Ok s1 ∧
    model i = AClass (class_of m) ∧
    fields i = fields s1 ∧
    relation_fields i = relation_fields s1 ∧
    many_fields i = many_fields s1 ∧
    (∀ n, n ∈ attributes i ↔
       n ∈ dir (class_of m) ∧
       choose_attribute env n i = Ok (Some (n, Attributes))) ∧
    (∀ n, n ∈ methods i ↔
       n ∈ dir (class_of m) ∧ choose_method n i = Ok (Some (n, Methods))) ∧
    (∀ n, n ∈ dir (class_of m) → ∃ o, choose_method n i = Ok o) ∧
    (∀ n, n ∈ properties i ↔
       n ∈ dir (class_of m) ∧
       choose_property n i = Ok (Some (n, Properties))) ∧
    items i = fields i ∪ relation_fields i ∪ many_fields i ∪ attributes i ∪
              methods i ∪ properties i.
Proof.
  rewrite init_unfold.
  intros (s1 & H1 & (s2 & H2 & (s3 & H3 & H4)%bind_Ok)%bind_Ok)%bind_Ok.
  exists s1. split; [done|].
  destruct (update_fields_spec _ _ _ H1) as (Hm1 & Ho1 & Hit1).
  destruct (update_attributes_spec _ _ _ H2) as (Hm2 & Ho2 & Hc2 & _ & Hit2).
  destruct (update_methods_spec _ _ H3) as (Hm3 & Ho3 & Hc3 & Hd3 & Hit3).
  destruct (update_properties_spec _ _ H4) as (Hm4 & Ho4 & Hc4 & _ & Hit4).
  simpl in Hm1.
  assert (model i = AClass (class_of m)) as Hmi by congruence.
  pose proof (Ho1 Attributes eq_refl) as Ha1.
  pose proof (Ho1 Methods eq_refl) as Hme1.
  pose proof (Ho1 Properties eq_refl) as Hp1.
  pose proof (Ho2 Fields ltac:(done)) as Hf2.
  pose proof (Ho2 RelationFields ltac:(done)) as Hr2.
  pose proof (Ho2 ManyFields ltac:(done)) as Hma2.
  pose proof (Ho3 Fields ltac:(done)) as Hf3.
  pose proof (Ho3 RelationFields ltac:(done)) as Hr3.
  pose proof (Ho3 ManyFields ltac:(done)) as Hma3.
  pose proof (Ho3 Attributes ltac:(done)) as Ha3.
  pose proof (Ho4 Fields ltac:(done)) as Hf4.
  pose proof (Ho4 RelationFields ltac:(done)) as Hr4.
  pose proof (Ho4 ManyFields ltac:(done)) as Hma4.
  pose proof (Ho4 Attributes ltac:(done)) as Ha4.
  pose proof (Ho4 Methods ltac:(done)) as Hme4.
  simpl in *.
  assert (fields i = fields s1) as Hfi by congruence.
  assert (relation_fields i = relation_fields s1) as Hri by congruence.
  assert (many_fields i = many_fields s1) as Hmai by congruence.
  assert (attributes i = attributes s2) as Hai by congruence.
  assert (methods i = methods s3) as Hmei by congruence.
  split_and!; try done.
  - intros n. rewrite Hai, Hc2.
    rewrite (choose_attribute_ext env n i s1) by congruence.
    by rewrite Hm1.
  - intros n. rewrite Hmei, Hc3.
    rewrite (choose_method_ext n i s2) by congruence.
    by rewrite Hm2, Hm1.
  - intros n Hn. rewrite (choose_method_ext n i s2) by congruence.
    apply Hd3. by rewrite Hm2, Hm1.
  - intros n. rewrite Hc4.
    rewrite (choose_property_ext n i s3) by congruence.
    by rewrite Hm3, Hm2, Hm1.
  - apply set_eq. intros n. rewrite Hit4, Hit3, Hit2.
    rewrite !elem_of_union, Hit1, Hfi, Hri, Hmai, Hai, Hmei.
    rewrite elem_of_empty. tauto.
Qed.

(** On a successful construction every read of the attribute pass and of
    the property pass returned. *)
Lemma init_defined env m i :
  __init__ env m = Ok i →
  (∀ n, n ∈ dir (class_of m) → ∃ o, choose_attribute env n i = Ok o) ∧
  (∀ n, n ∈ dir (class_of m) → ∃ o, choose_property n i = Ok o).
Proof.
  rewrite init_unfold.
  intros (s1 & H1 & (s2 & H2 & (s3 & H3 & H4)%bind_Ok)%bind_Ok)%bind_Ok.
  destruct (update_fields_spec _ _ _ H1) as (Hm1 & _ & _).
  destruct (update_attributes_spec _ _ _ H2) as (Hm2 & Ho2 & _ & Hd2 & _).
  destruct (update_methods_spec _ _ H3) as (Hm3 & Ho3 & _ & _ & _).
  destruct (update_properties_spec _ _ H4) as (Hm4 & Ho4 & _ & Hd4 & _).
  pose proof (Ho2 Fields ltac:(done)) as Hf2.
  pose proof (Ho3 Fields ltac:(done)) as Hf3.
  pose proof (Ho4 Fields ltac:(done)) as Hf4.
  simpl in *. split; intros n Hn.
  - rewrite (choose_attribute_ext env n i s1) by congruence.
    apply Hd2. by rewrite Hm1.
  - rewrite (choose_property_ext n i s3) by congruence.
    apply Hd4. by rewrite Hm3, Hm2, Hm1.
Qed.

Lemma init_total env m s1 :
  update_fields env (empty_inspector (class_of m)) = Ok s1 →
  (∀ n, n ∈ dir (class_of m) → ∃ o, choose_attribute env n s1 = Ok o) →
  (∀ n, n ∈ dir (class_of m) → ∃ o, choose_method n s1 = Ok o) →
  (∀ n, n ∈ dir (class_of m) → ∃ o, choose_property n s1 = Ok o) →
  ∃ i, __init__ env m = Ok i.
Proof.
  intros H1 Hda Hdm Hdp. rewrite init_unfold, H1. simpl.
  destruct (update_fields_spec _ _ _ H1) as (Hm1 & _ & _). simpl in Hm1.
  destruct (update_attributes_total env s1) as [s2 H2].
  { intros n Hn. apply Hda. by rewrite Hm1 in Hn. }
  rewrite H2. simpl.
  destruct (update_attributes_spec _ _ _ H2) as (Hm2 & Ho2 & _).
  pose proof (Ho2 Fields ltac:(done)) as Hf2. simpl in Hf2.
  destruct (update_methods_total s2) as [s3 H3].
  { intros n Hn. rewrite (choose_method_ext n s2 s1) by done.
    apply Hdm. by rewrite Hm2, Hm1 in Hn. }
  rewrite H3. simpl.
  destruct (update_methods_spec _ _ H3) as (Hm3 & Ho3 & _).
  apply update_properties_total.
  intros n Hn. rewrite (choose_property_ext n s3 s1) by congruence.
  apply Hdp. by rewrite Hm3, Hm2, Hm1 in Hn.
Qed.

(** ** Reading the decisions back *)

Lemma choose_attribute_Some_iff env a s :
  choose_attribute env a s = Ok (Some (a, Attributes)) ↔
  startswith a "_" = false ∧ (a ∉ fields s) ∧
  ∃ item answers,
    getattr (model s) a PyNone = Ok item ∧
    models_manager env && isinstance_Manager item = false ∧
    comprehension ALL_BUT_ATTRIBUTES item = Ok answers ∧
    any answers = false.
Proof.
  unfold choose_attribute.
  destruct (startswith a "_"); [split; [discriminate|by intros [[=] _]]|].
  destruct (bool_decide (a ∈ fields s)) eqn:Hf; cbn [orb].
  { apply bool_decide_eq_true in Hf.
    split; [discriminate|]. by intros (_ & Hnf & _). }
  apply bool_decide_eq_false in Hf.
  destruct (getattr (model s) a PyNone) as [item|e]; cbn [bind].
  2:{ split; [discriminate|]. by intros (_ & _ & ? & ? & [=] & _). }
  destruct (models_manager env && isinstance_Manager item) eqn:Hma.
  { split; [discriminate|].
    intros (_ & _ & ? & ? & [= <-] & Hma' & _). congruence. }
  destruct (comprehension ALL_BUT_ATTRIBUTES item) as [answers|e] eqn:Hc;
    cbn [bind].
  2:{ split; [discriminate|].
      intros (_ & _ & ? & ? & [= <-] & _ & Hc' & _). congruence. }
  destruct (any answers) eqn:Hany.
  - split; [discriminate|].
    intros (_ & _ & ? & ? & [= <-] & _ & Hc' & Hany'). congruence.
  - split; [|done]. intros _. split; [done|]. split; [done|].
    by exists item, answers.
Qed.

Lemma choose_method_Some m s :
  choose_method m s = Ok (Some (m, Methods)) ↔
  startswith m "_" = false ∧ (m ∉ fields s) ∧
  (m ∉ DJANGO_GENERATED_METHODS) ∧
  ∃ func, getattr (model s) m PyNone = Ok func ∧
          is_method_without_args func = Ok true.
Proof.
  unfold choose_method.
  destruct (startswith m "_"); [split; [discriminate|by intros [[=] _]]|].
  destruct (bool_decide (m ∈ fields s)) eqn:Hf; cbn [orb].
  { apply bool_decide_eq_true in Hf.
    split; [discriminate|]. by intros (_ & Hnf & _). }
  apply bool_decide_eq_false in Hf.
  destruct (bool_decide (m ∈ DJANGO_GENERATED_METHODS)) eqn:Hd.
  { apply bool_decide_eq_true in Hd.
    split; [discriminate|]. by intros (_ & _ & Hnd & _). }
  apply bool_decide_eq_false in Hd.
  destruct (getattr (model s) m PyNone) as [func|e]; cbn [bind].
  2:{ split; [discriminate|]. by intros (_ & _ & _ & ? & [=] & _). }
  destruct (is_method_without_args func) as [[]|e] eqn:Hb; cbn [bind].
  - split; [|done]. intros _. split_and!; try done. by exists func.
  - split; [discriminate|].
    intros (_ & _ & _ & ? & [= <-] & Hb'). congruence.
  - split; [discriminate|].
    intros (_ & _ & _ & ? & [= <-] & Hb'). congruence.
Qed.

Lemma choose_property_Some n s :
  choose_property n s = Ok (Some (n, Properties)) ↔
  ∃ v, getattr (model s) n PyNone = Ok v ∧ isinstance_property v = true.
Proof.
  unfold choose_property.
  destruct (getattr (model s) n PyNone) as [v|e]; cbn [bind].
  2:{ split; [discriminate|]. by intros (? & [=] & _). }
  destruct (isinstance_property v) eqn:Hp.
  - split; [|done]. intros _. by exists v.
  - split; [discriminate|]. intros (? & [= <-] & Hp'). congruence.
Qed.

(** A value [is_method_without_args] accepts is a function or a method. *)
Lemma is_method_without_args_kind v :
  is_method_without_args v = Ok true →
  inspect.isfunction v || inspect.ismethod v = true.
Proof. by destruct v. Qed.

Lemma attribute_not_function v answers :
  comprehension ALL_BUT_ATTRIBUTES v = Ok answers → any answers = false →
  inspect.isfunction v || inspect.ismethod v = false ∧
  isinstance_property v = false.
Proof.
  destruct v as [| | | | | |f|[f|]| | | | | | | | | |]; simpl;
    try discriminate; intros [= <-]; simpl; try discriminate; done.
Qed.

Lemma property_not_function v :
  isinstance_property v = true →
  inspect.isfunction v || inspect.ismethod v = false.
Proof. by destruct v. Qed.

(** Decide a closed proposition by evaluation. *)
Ltac by_evaluation :=
  lazymatch goal with
  | |- ?P => apply (bool_decide_unpack P); vm_compute; exact I
  end.

(** ** C1: [items] and the six sets *)

Lemma tagged_item_init :
  __init__ env18 (AClass tagged_item) = Ok tagged_item_inspector.
Proof. vm_compute. reflexivity. Qed.

Lemma field_sets_of_entry env m i o entry n t :
  __init__ env m = Ok i →
  namespace (class_of m) !! "_meta" = Some (Value (PyOptions o)) →
  entry ∈ get_fields o →
  choose_field o (name entry) i = Ok (Some (n, t)) →
  n ∈ item_type_get t i.
Proof.
  intros (s1 & H1 & _ & Hf & Hr & Hma & _)%init_spec Hmeta He Hc.
  destruct (update_fields_options_spec env (empty_inspector (class_of m))
              s1 o Hmeta H1) as (_ & _ & Hget & _).
  assert (n ∈ item_type_get t s1) as Hn.
  { apply Hget. right. left. by exists entry. }
  pose proof (choose_field_type _ _ _ _ _ Hc) as Ht.
  destruct t; try discriminate; simpl in *; congruence.
Qed.

(** C1: the code at the failing input.  A generic foreign key that the
    framework lists among the declared entries (direct, [rel] [None]) and
    among the virtual fields is put in [fields] by the loop and in
    [relation_fields] by the generic scan, so the six sets are not pairwise
    disjoint. *)
Theorem C1_generic_foreign_key_in_two_sets env m i o g :
  __init__ env m = Ok i →
  namespace (class_of m) !! "_meta" = Some (Value (PyOptions o)) →
  contenttypes_generic env = true →
  g ∈ get_fields o →
  get_field o (name g) = Some g →
  is_direct g = true →
  rel g = RelNone →
  g ∈ virtual_fields o →
  generic_foreign_key g = true →
  name g ∈ fields i ∧ name g ∈ relation_fields i ∧ ¬ pairwise_disjoint i.
Proof.
  intros Hi Hmeta Hon Hg Hgf Hd Hrel Hv Hgfk.
  assert (name g ∈ fields i) as HF.
  { apply (field_sets_of_entry env m i o g (name g) Fields Hi Hmeta Hg).
    unfold choose_field. rewrite Hgf. unfold is_direct in Hd.
    rewrite Hd, Hrel. done. }
  assert (name g ∈ relation_fields i) as HR.
  { apply init_spec in Hi as (s1 & H1 & _ & _ & Hr & _).
    destruct (update_fields_options_spec env (empty_inspector (class_of m))
                s1 o Hmeta H1) as (_ & _ & Hget & _).
    rewrite Hr. apply (Hget RelationFields). right. right.
    split; [done|]. split; [done|]. by exists g. }
  split; [done|]. split; [done|].
  intros Hdis. exact (Hdis Fields RelationFields ltac:(done) (name g) HF HR).
Qed.

Lemma C1_generic_foreign_key_in_two_sets_witness :
  __init__ env18 (AClass tagged_item) = Ok tagged_item_inspector ∧
  "content_object" ∈ fields tagged_item_inspector ∧
  "content_object" ∈ relation_fields tagged_item_inspector ∧
  ¬ pairwise_disjoint tagged_item_inspector.
Proof.
  split; [vm_compute; reflexivity|].
  exact (C1_generic_foreign_key_in_two_sets env18 (AClass tagged_item)
           tagged_item_inspector tagged_item_options
           (generic_foreign_key_field "content_object")
           ltac:(vm_compute; reflexivity) ltac:(vm_compute; reflexivity)
           eq_refl ltac:(simpl; set_solver) ltac:(vm_compute; reflexivity)
           eq_refl eq_refl ltac:(simpl; set_solver) eq_refl).
Defined.

(** ** C3: which names are methods *)

Lemma len_without_defaults spec :
  len (match defaults spec with
       | Some (d :: ds) => slice_to_neg (args spec) (len (d :: ds))
       | _ => args spec
       end) = 1 ↔
  receiver_required spec ∧ required_parameter_count spec = 0.
Proof.
  unfold receiver_required, required_parameter_count, len, slice_to_neg.
  destruct (args spec) as [|a l]; destruct (defaults spec) as [[|d ds]|];
    simpl; rewrite ?length_take; simpl; lia.
Qed.

Lemma is_method_without_args_function f :
  is_method_without_args (PyFunction f) =
  Ok (bool_decide
        (len (match defaults (argspec f) with
              | Some (d :: ds) =>
                  slice_to_neg (args (argspec f)) (len (d :: ds))
              | _ => args (argspec f)
              end) = 1)) ∧
  is_method_without_args (PyMethod (ImFunction f)) =
  is_method_without_args (PyFunction f).
Proof. done. Qed.

Lemma is_method_without_args_true v :
  is_method_without_args v = Ok true ↔ method_with_bare_receiver v.
Proof.
  unfold method_with_bare_receiver.
  destruct v as [| | | | | |f|[f|]| | | | | | | | | |];
    try (split; [discriminate|intros (f' & [?|?] & _); discriminate]).
  - rewrite (proj1 (is_method_without_args_function f)). split.
    + intros [= Hb]. apply bool_decide_eq_true in Hb.
      exists f. split; [by left|]. by apply len_without_defaults.
    + intros (f' & [[= <-]|Hk] & Hr); [|discriminate].
      f_equal. apply bool_decide_eq_true. by apply len_without_defaults.
  - rewrite (proj2 (is_method_without_args_function f)),
      (proj1 (is_method_without_args_function f)). split.
    + intros [= Hb]. apply bool_decide_eq_true in Hb.
      exists f. split; [by right|]. by apply len_without_defaults.
    + intros (f' & [Hk|[= <-]] & Hr); [discriminate|].
      f_equal. apply bool_decide_eq_true. by apply len_without_defaults.
Qed.

Lemma is_method_without_args_raises v e :
  is_method_without_args v = Raise e → v = PyMethod ImCallable.
Proof. by destruct v as [| | | | | |f|[f|]| | | | | | | | | |]. Qed.

Lemma stamp_init : __init__ env18 (AClass stamp) = Ok stamp_inspector.
Proof. vm_compute. reflexivity. Qed.

(** C3, as stated, fails: [def now()] has no parameter at all, so it needs
    no argument and its required-parameter count is zero, and it survives
    the exclusions; the code leaves it out of [methods]. *)
Lemma C3_counterexample :
  ∃ i, __init__ env18 (AClass stamp) = Ok i ∧
       ¬ (∀ n v, n ∈ dir_of (model i) → startswith n "_" = false →
                 n ∉ fields i → n ∉ DJANGO_GENERATED_METHODS →
                 getattr (model i) n PyNone = Ok v →
                 n ∈ methods i ↔ callable_without_args v).
Proof.
  exists stamp_inspector. split; [apply stamp_init|].
  intros H.
  specialize (H "now" (PyFunction (function_of [] None))
                ltac:(simpl; set_solver) eq_refl ltac:(simpl; set_solver)
                ltac:(by_evaluation) eq_refl).
  assert ("now" ∈ methods stamp_inspector) as Hin.
  { apply H. exists (function_of [] None). split; [by left|done]. }
  simpl in Hin. set_solver.
Qed.

(** C3 (amended): a member name that survives the underscore, field and
    denylist exclusions is in [methods] exactly when its value is a
    function or a method that has a first parameter without a default (the
    receiver) and whose required-parameter count after the receiver, less
    the parameters with defaults, is zero. *)
Theorem C3_methods_bare_receiver env m i n :
  __init__ env m = Ok i →
  n ∈ dir_of (model i) →
  startswith n "_" = false →
  n ∉ fields i →
  n ∉ DJANGO_GENERATED_METHODS →
  n ∈ methods i ↔
  ∃ v, getattr (model i) n PyNone = Ok v ∧ method_with_bare_receiver v.
Proof.
  intros (s1 & _ & Hm & _ & _ & _ & _ & Hme & _)%init_spec Hdir Hu Hf Hd.
  rewrite Hme, choose_method_Some.
  setoid_rewrite is_method_without_args_true.
  rewrite Hm in Hdir. simpl in Hdir. tauto.
Qed.

(** [resize(width, height=100)] requires one parameter and is left out. *)
Lemma C3_methods_bare_receiver_witness :
  __init__ env18 (AClass photo) = Ok photo_inspector ∧
  "resize" ∈ dir_of (model photo_inspector) ∧
  startswith "resize" "_" = false ∧
  ("resize" ∉ fields photo_inspector) ∧
  ("resize" ∉ DJANGO_GENERATED_METHODS) ∧
  getattr (model photo_inspector) "resize" PyNone = Ok resize ∧
  required_parameter_count
    {| args := ["self"; "width"; "height"]; varargs := None;
       keywords := None; defaults := Some [DInt 100] |} = 1 ∧
  ("resize" ∉ methods photo_inspector).
Proof.
  assert ("resize" ∈ dir_of (model photo_inspector)) as Hdir
    by (simpl; set_solver).
  assert ("resize" ∉ fields photo_inspector) as Hf by (simpl; set_solver).
  assert ("resize" ∉ DJANGO_GENERATED_METHODS) as Hd by by_evaluation.
  pose proof (C3_methods_bare_receiver env18 (AClass photo) photo_inspector
                "resize" ltac:(vm_compute; reflexivity) Hdir eq_refl Hf Hd)
    as H.
  split; [vm_compute; reflexivity|].
  do 4 (split; [done|]). split; [reflexivity|]. split; [reflexivity|].
  intros Hin. apply H in Hin as (v & Hv & f & Hk & _ & Hc).
  vm_compute in Hv. injection Hv as <-.
  destruct Hk as [Hk|Hk]; [discriminate|].
  injection Hk as <-. vm_compute in Hc. discriminate.
Defined.

(** ** C2: classification of the declared field entries *)

(** C2: every declared entry that the framework resolves by its name is
    classified as the claim says: a direct entry under its field name (many
    when its relation has a link table, single-valued relation otherwise,
    plain field without relation metadata), a reverse entry under its
    accessor name (many when the remote relation is multiple, single-valued
    otherwise). *)
Theorem C2_field_classification env m i o f :
  __init__ env m = Ok i →
  namespace (class_of m) !! "_meta" = Some (Value (PyOptions o)) →
  f ∈ get_fields o →
  get_field o (name f) = Some f →
  let direct := negb (auto_created f) || concrete f in
  (direct = true →
     (∀ r, rel f = RelObj r →
           if has_through r then name f ∈ many_fields i
           else name f ∈ relation_fields i) ∧
     (rel f = RelNone → name f ∈ fields i) ∧
     rel f ≠ RelMissing) ∧
  (direct = false →
     ∃ accessor remote r,
       get_accessor_name f = Some accessor ∧ field f = Some remote ∧
       rel remote = RelObj r ∧
       if multiple r then accessor ∈ many_fields i
       else accessor ∈ relation_fields i).
Proof.
  intros Hinit Hmeta Hf Hgf.
  apply init_spec in Hinit as (s1 & H1 & _ & Hfi & Hri & Hmi & _).
  destruct (update_fields_options_spec env (empty_inspector (class_of m))
              s1 o Hmeta H1) as (_ & Hdef & Hget & _).
  destruct (Hdef f Hf) as [c Hc].
  assert (∀ n t, c = Some (n, t) → n ∈ item_type_get t i) as Hin.
  { intros n t ->.
    assert (n ∈ item_type_get t s1) as Hn.
    { apply Hget. right. left. eauto. }
    pose proof (choose_field_type _ _ _ _ _ Hc) as Ht.
    destruct t; try discriminate; simpl in *; congruence. }
  unfold choose_field in Hc. rewrite Hgf in Hc. simpl.
  destruct (negb (auto_created f) || concrete f); simpl in Hc.
  - split; [intros _|discriminate].
    destruct (rel f) as [| |r]; [discriminate| |].
    + injection Hc as <-. split_and!; [discriminate| |discriminate].
      intros _. apply (Hin _ Fields eq_refl).
    + injection Hc as <-. split_and!; [|discriminate|discriminate].
      intros r' [= <-]. specialize (Hin _ _ eq_refl).
      by destruct (has_through r).
  - split; [discriminate|intros _].
    destruct (get_accessor_name f) as [a|]; [|discriminate].
    destruct (field f) as [f'|]; [|discriminate].
    destruct (rel f') as [| |r] eqn:Hrel; [discriminate|discriminate|].
    injection Hc as <-. exists a, f', r. split_and!; try done.
    specialize (Hin _ _ eq_refl). by destruct (multiple r).
Qed.

(** The reverse relation from [book.author] is classified under its
    accessor name [book_set], as many-valued. *)
Lemma C2_field_classification_witness :
  __init__ env18 (AClass author) = Ok author_inspector ∧
  "book_set" ∈ many_fields author_inspector.
Proof.
  pose (book := reverse_relation "book" "book_set" (foreign_key "author")).
  pose proof (C2_field_classification env18 (AClass author) author_inspector
                author_options book
                ltac:(vm_compute; reflexivity) ltac:(vm_compute; reflexivity)
                ltac:(simpl; set_solver) ltac:(vm_compute; reflexivity))
    as [_ H].
  split; [vm_compute; reflexivity|].
  destruct (H eq_refl) as (a & remote & r & [= <-] & [= <-] & [= <-] & Hin).
  exact Hin.
Defined.

(** ** C4: the lifecycle denylist *)

(** C4: no name in [methods] is in the lifecycle denylist. *)
Theorem C4_methods_avoid_denylist env m i n :
  __init__ env m = Ok i →
  n ∈ methods i →
  n ∉ DJANGO_GENERATED_METHODS.
Proof.
  intros (s1 & _ & _ & _ & _ & _ & _ & Hme & _)%init_spec [_ Hc]%Hme.
  by apply choose_method_Some in Hc as (_ & _ & Hd & _).
Qed.

(** A model whose only extra method is a zero-argument [save]: [save] is
    in the denylist, so it is not in [methods]. *)
Lemma C4_methods_avoid_denylist_witness :
  __init__ env18 (AClass order) = Ok order_inspector ∧
  is_method_without_args (method_of ["self"] None) = Ok true ∧
  "save" ∈ DJANGO_GENERATED_METHODS ∧
  ("save" ∉ methods order_inspector).
Proof.
  split; [vm_compute; reflexivity|]. split; [vm_compute; reflexivity|].
  assert ("save" ∈ DJANGO_GENERATED_METHODS) as Hd by by_evaluation.
  split; [exact Hd|]. intros Hin.
  exact (C4_methods_avoid_denylist env18 (AClass order) order_inspector "save"
           ltac:(vm_compute; reflexivity) Hin Hd).
Defined.

(** ** C7: names with the internal prefix *)

(** C7, as stated, fails: [update_properties] filters no names, so the
    property [_secret] is in [properties]. *)
Lemma C7_counterexample :
  ∃ i, __init__ env18 (AClass account) = Ok i ∧ ¬ no_internal_names i.
Proof.
  exists account_inspector. split; [vm_compute; reflexivity|].
  intros H. specialize (H Properties "_secret" ltac:(simpl; set_solver)).
  discriminate.
Qed.

(** C7 (amended): no name in [attributes] or in [methods] starts with an
    underscore. *)
Theorem C7_no_internal_attributes_methods env m i n :
  __init__ env m = Ok i →
  n ∈ attributes i ∪ methods i →
  startswith n "_" = false.
Proof.
  intros (s1 & _ & _ & _ & _ & _ & Ha & Hme & _)%init_spec
         [[_ Hc]%Ha|[_ Hc]%Hme]%elem_of_union.
  - by apply choose_attribute_Some_iff in Hc as (Hu & _).
  - by apply choose_method_Some in Hc as (Hu & _).
Qed.

Lemma C7_no_internal_attributes_methods_witness :
  __init__ env18 (AClass photo) = Ok photo_inspector ∧
  "rotate" ∈ attributes photo_inspector ∪ methods photo_inspector ∧
  startswith "rotate" "_" = false.
Proof.
  assert ("rotate" ∈ attributes photo_inspector ∪ methods photo_inspector)
    as Hin by (simpl; set_solver).
  split; [vm_compute; reflexivity|]. split; [exact Hin|].
  exact (C7_no_internal_attributes_methods env18 (AClass photo)
           photo_inspector "rotate" ltac:(vm_compute; reflexivity) Hin).
Defined.

(** ** C8: instance or class *)

(** C8: constructing an inspector from an instance does what constructing
    it from the instance's class does (the same inspector, or the same
    exception), whatever [dir] and [getattr] give on the instance itself,
    and the [model] of an inspector is the resolved class, never the
    instance. *)
Theorem C8_instance_as_class env m :
  __init__ env m = __init__ env (AClass (class_of m)) ∧
  ∀ i, __init__ env m = Ok i → model i = AClass (class_of m).
Proof.
  split; [by destruct m|].
  intros i H. by apply init_spec in H as (s1 & _ & Hm & _).
Qed.

(** On the instance itself [dir] lists the instance attributes [caption]
    and [id], which the attribute pass would classify; the inspector built
    from the instance has none of them. *)
Lemma C8_instance_as_class_witness :
  __init__ env18 (AnInstance a_photo) = Ok photo_inspector ∧
  __init__ env18 (AClass photo) = Ok photo_inspector ∧
  model photo_inspector = AClass photo ∧
  "id" ∈ dir_of (AnInstance a_photo) ∧
  ("id" ∉ items photo_inspector).
Proof.
  destruct (C8_instance_as_class env18 (AnInstance a_photo)) as [H1 H2].
  assert (__init__ env18 (AnInstance a_photo) = Ok photo_inspector) as H
    by (vm_compute; reflexivity).
  split; [exact H|]. split; [exact (eq_trans (eq_sym H1) H)|].
  split; [exact (H2 _ H)|]. split; by_evaluation.
Defined.

(** ** C5: the generic-relation import fails *)

Lemma for_each_raise {A S} (body : A → S → result S) l s e :
  for_each l body s = Raise e → ∃ x s', x ∈ l ∧ body x s' = Raise e.
Proof.
  revert s. induction l as [|x l IH]; intros s; simpl; [discriminate|].
  destruct (body x s) as [s1|e1] eqn:Hx; simpl.
  - intros (y & s' & Hy & Hb)%IH. exists y, s'. split; [by right|done].
  - intros [= ->]. exists x, s. split; [by left|done].
Qed.

Lemma getattr_raise obj n d e :
  getattr obj n d = Raise e →
  e = DescriptorError ∧ namespace_of obj !! n = Some RaisesOther.
Proof.
  unfold getattr.
  destruct (namespace_of obj !! n) as [[v| |]|]; try discriminate.
  by intros [= <-].
Qed.


Lemma comprehension_raise v e :
  comprehension ALL_BUT_ATTRIBUTES v = Raise e →
  e = AttributeError ∧ v = PyMethod ImCallable.
Proof.
  by destruct v as [| | | | | |f|[f|]| | | | | | | | | |];
    simpl; try discriminate; intros [= <-].
Qed.


Lemma choose_field_raise o f s e :
  choose_field o f s = Raise e → e ≠ ImportError.
Proof.
  unfold choose_field. repeat case_match; intros [= <-]; discriminate.
Qed.

Lemma choose_attribute_raise env a s e :
  choose_attribute env a s = Raise e → e ≠ ImportError.
Proof.
  unfold choose_attribute.
  destruct (_ || _); [discriminate|].
  destruct (getattr (model s) a PyNone) as [item|e'] eqn:Hg; cbn [bind].
  2:{ intros [= <-]. by apply getattr_raise in Hg as [-> _]. }
  destruct (_ && _); [discriminate|].
  destruct (comprehension ALL_BUT_ATTRIBUTES item) as [answers|e'] eqn:Hc;
    cbn [bind]; [discriminate|].
  intros [= <-]. by apply comprehension_raise in Hc as [-> _].
Qed.

Lemma choose_method_raise m s e :
  choose_method m s = Raise e → e ≠ ImportError.
Proof.
  unfold choose_method.
  destruct (_ || _); [discriminate|].
  destruct (bool_decide _); [discriminate|].
  destruct (getattr (model s) m PyNone) as [func|e'] eqn:Hg; cbn [bind].
  2:{ intros [= <-]. by apply getattr_raise in Hg as [-> _]. }
  destruct (is_method_without_args func) as [b|e'] eqn:Hb; cbn [bind];
    [discriminate|].
  intros [= <-]. apply is_method_without_args_raises in Hb as Hv.
  subst func. by injection Hb as <-.
Qed.

Lemma choose_property_raise n s e :
  choose_property n s = Raise e → e ≠ ImportError.
Proof.
  unfold choose_property.
  destruct (getattr (model s) n PyNone) as [v|e'] eqn:Hg; cbn [bind];
    [discriminate|].
  intros [= <-]. by apply getattr_raise in Hg as [-> _].
Qed.

Lemma add_chosen_raise {A} (choose : A → InspectModel → _) x s e :
  add_chosen choose x s = Raise e → choose x s = Raise e.
Proof.
  unfold add_chosen. destruct (choose x s); simpl; [discriminate|].
  by intros [= ->].
Qed.

Lemma update_fields_raise env s e :
  update_fields env s = Raise e → e ≠ ImportError.
Proof.
  unfold update_fields.
  change (model (reset_fields s)) with (model s).
  destruct (getattr (model s) "_meta" PyNone) as [v|e'] eqn:Hg; cbn [bind].
  2:{ intros [= <-]. by apply getattr_raise in Hg as [-> _]. }
  destruct (truthy v); [|discriminate].
  destruct v as [| |o| | | | | | | | | | | | | | |];
    try (intros [= <-]; discriminate).
  rewrite (for_each_ext _ _ _ _ (update_fields_body_chosen o)).
  destruct (for_each _ _ _) as [s1|e1] eqn:Hloop; simpl.
  - destruct (update_generic_foreign_keys_total env o s1) as [s2 ->].
    discriminate.
  - intros [= ->].
    apply for_each_raise in Hloop as (x & s' & _ & Hb).
    apply add_chosen_raise in Hb. by eapply choose_field_raise.
Qed.

Lemma init_raise env m e : __init__ env m = Raise e → e ≠ ImportError.
Proof.
  rewrite init_unfold.
  destruct (update_fields _ _) as [s1|e1] eqn:H1; simpl.
  2:{ intros [= ->]. by eapply update_fields_raise. }
  destruct (update_attributes env s1) as [s2|e2] eqn:H2; simpl.
  2:{ intros [= ->]. unfold update_attributes in H2.
      rewrite (for_each_ext _ _ _ _ (update_attributes_body_chosen env))
        in H2.
      apply for_each_raise in H2 as (x & s' & _ & Hb).
      apply add_chosen_raise in Hb. by eapply choose_attribute_raise. }
  destruct (update_methods s2) as [s3|e3] eqn:H3; simpl.
  2:{ intros [= ->]. unfold update_methods in H3.
      rewrite (for_each_ext _ _ _ _ update_methods_body_chosen) in H3.
      apply for_each_raise in H3 as (x & s' & _ & Hb).
      apply add_chosen_raise in Hb. by eapply choose_method_raise. }
  intros H4. unfold update_properties in H4.
  rewrite (for_each_ext _ _ _ _ update_properties_body_chosen) in H4.
  apply for_each_raise in H4 as (x & s' & _ & Hb).
  apply add_chosen_raise in Hb. by eapply choose_property_raise.
Qed.

Lemma update_generic_foreign_keys_unavailable env o s :
  contenttypes_generic env = false →
  update_generic_foreign_keys env o s = Ok s.
Proof.
  unfold update_generic_foreign_keys, import_GenericForeignKey.
  by intros ->.
Qed.

Lemma choose_attribute_env env env' n s s' :
  models_manager env = models_manager env' →
  model s = model s' → fields s = fields s' →
  choose_attribute env n s = choose_attribute env' n s'.
Proof. unfold choose_attribute. by intros -> -> ->. Qed.

Lemma update_fields_without_generic env s s1' :
  contenttypes_generic env = false →
  update_fields (with_generic env) s = Ok s1' →
  ∃ s1, update_fields env s = Ok s1 ∧ model s1 = model s1' ∧
        fields s1 = fields s1' ∧ many_fields s1 = many_fields s1'.
Proof.
  intros Hoff H.
  destruct (update_fields_cases _ _ _ H) as [(v & Hv & Ht & ->)|[o Hmeta]].
  { exists (reset_fields s). by rewrite (update_fields_no_meta env s v). }
  rewrite (update_fields_options _ _ _ Hmeta) in H.
  apply bind_Ok in H as (sL & Hloop & Hgen).
  apply update_generic_foreign_keys_spec in Hgen as (Hm & Hget & _).
  exists sL. rewrite (update_fields_options _ _ _ Hmeta), Hloop. simpl.
  split; [by apply update_generic_foreign_keys_unavailable|].
  split; [done|].
  split; apply set_eq; intros n.
  - rewrite (Hget Fields n). naive_solver.
  - rewrite (Hget ManyFields n). naive_solver.
Qed.

(** C5: when the generic-relation module cannot be imported, the scan
    returns the inspector unchanged, construction never raises
    [ImportError], it succeeds whenever it succeeds with the module present
    (with the same sets, [relation_fields] apart), and every name in
    [relation_fields] comes from a declared field entry. *)
Theorem C5_generic_unavailable env :
  contenttypes_generic env = false →
  (∀ o s, update_generic_foreign_keys env o s = Ok s) ∧
  (∀ m, __init__ env m ≠ Raise ImportError) ∧
  (∀ m i1, __init__ (with_generic env) m = Ok i1 →
     ∃ i0, __init__ env m = Ok i0 ∧
           fields i0 = fields i1 ∧ many_fields i0 = many_fields i1 ∧
           attributes i0 = attributes i1 ∧ methods i0 = methods i1 ∧
           properties i0 = properties i1) ∧
  (∀ m i o n, __init__ env m = Ok i →
     namespace (class_of m) !! "_meta" = Some (Value (PyOptions o)) →
     n ∈ relation_fields i →
     ∃ f, f ∈ get_fields o ∧
          choose_field o (name f) i = Ok (Some (n, RelationFields))).
Proof.
  intros Hoff. split_and!.
  - intros o s. by apply update_generic_foreign_keys_unavailable.
  - intros m H. by apply init_raise in H.
  - intros m i1 Hi1.
    pose proof (init_defined _ _ _ Hi1) as [Hda1 Hdp1].
    pose proof Hi1 as
      (s1' & H1' & Hm1 & Hf1 & _ & Hma1 & Ha1 & Hme1 & Hd1 & Hp1 & _)%init_spec.
    destruct (update_fields_without_generic _ _ _ Hoff H1')
      as (s1 & H1 & Hms & Hfs & Hmas).
    destruct (update_fields_spec _ _ _ H1') as (Hms1' & _).
    simpl in Hms1'.
    destruct (init_total env m s1 H1) as [i0 Hi0].
    { intros n Hn.
      rewrite (choose_attribute_env env (with_generic env) n s1 i1);
        [by apply Hda1|done|congruence|congruence]. }
    { intros n Hn. rewrite (choose_method_ext n s1 i1) by congruence.
      by apply Hd1. }
    { intros n Hn. rewrite (choose_property_ext n s1 i1) by congruence.
      by apply Hdp1. }
    exists i0. split; [done|].
    apply init_spec in Hi0
      as (s1'' & H1'' & Hm0 & Hf0 & _ & Hma0 & Ha0 & Hme0 & _ & Hp0 & _).
    assert (s1'' = s1) as -> by congruence.
    split_and!; try congruence; apply set_eq; intros n.
    + rewrite Ha0, Ha1.
      rewrite (choose_attribute_env env (with_generic env) n i0 i1);
        [done|done|congruence|congruence].
    + rewrite Hme0, Hme1.
      by rewrite (choose_method_ext n i0 i1) by congruence.
    + rewrite Hp0, Hp1.
      by rewrite (choose_property_ext n i0 i1) by congruence.
  - intros m i o n (s1 & H1 & _ & _ & Hr & _)%init_spec Hmeta Hn.
    destruct (update_fields_options_spec env (empty_inspector (class_of m))
                s1 o Hmeta H1) as (_ & _ & Hget & _).
    rewrite Hr in Hn. apply (Hget RelationFields) in Hn
      as [[[=] _]|[(f & Hf & Hc)|[_ [Hon _]]]]; [|congruence].
    exists f. split; [done|]. exact Hc.
Qed.

(** Without the module, the generic foreign key [content_object] of
    [tagged_item] stays out of [relation_fields] and nothing is raised. *)
Lemma C5_generic_unavailable_witness :
  contenttypes_generic env19 = false ∧
  __init__ env19 (AClass tagged_item) = Ok tagged_item_inspector19 ∧
  __init__ env19 (AClass tagged_item) ≠ Raise ImportError ∧
  update_generic_foreign_keys env19
    (options_of [] [generic_foreign_key_field "content_object"])
    tagged_item_inspector19 = Ok tagged_item_inspector19.
Proof.
  destruct (C5_generic_unavailable env19 eq_refl) as (Hscan & Hraise & _).
  split; [reflexivity|]. split; [vm_compute; reflexivity|].
  split; [apply Hraise|apply Hscan].
Defined.

(** ** C6: the article scenario *)





(** ** C10: a class without [_meta] *)







(** ** The three field sets, exactly *)

Lemma choose_field_Some o x s n t :
  choose_field o x s = Ok (Some (n, t)) ↔
  ∃ f, get_field o x = Some f ∧
       match t with
       | Fields => plain_field_entry f n
       | ManyFields => forward_relation true f n ∨ reverse_accessor true f n
       | RelationFields =>
           forward_relation false f n ∨ reverse_accessor false f n
       | _ => False
       end.
Proof.
  unfold choose_field, plain_field_entry, forward_relation, reverse_accessor,
    is_direct.
  destruct (get_field o x) as [f|]; [|split; [discriminate|by intros (? & ? & _)]].
  split.
  - intros H. exists f. split; [done|].
    destruct (negb (auto_created f) || concrete f); simpl in H.
    + destruct (rel f) as [| |r]; [discriminate| |].
      * by injection H as <- <-.
      * destruct (has_through r) eqn:Ht; injection H as <- <-; left;
          (split; [done|]); (split; [done|]); by exists r.
    + destruct (get_accessor_name f) as [a|]; [|discriminate].
      destruct (field f) as [f'|]; [|discriminate].
      destruct (rel f') as [| |r] eqn:Hrel; [discriminate|discriminate|].
      destruct (multiple r) eqn:Hmu; injection H as <- <-; right;
        (split; [done|]); (split; [done|]); by exists f', r.
  - intros (f0 & [= <-] & H).
    destruct (negb (auto_created f) || concrete f); simpl.
    + destruct t; try done.
      * by destruct H as (_ & -> & ->).
      * destruct H as [(_ & -> & r & -> & ->)|([=] & _)]. done.
      * destruct H as [(_ & -> & r & -> & ->)|([=] & _)]. done.
    + destruct t; try done.
      * by destruct H as ([=] & _).
      * destruct H as [([=] & _)|(_ & -> & f' & r & -> & -> & ->)]. done.
      * destruct H as [([=] & _)|(_ & -> & f' & r & -> & -> & ->)]. done.
Qed.

Lemma field_sets_exact env m i o t n :
  __init__ env m = Ok i →
  namespace (class_of m) !! "_meta" = Some (Value (PyOptions o)) →
  is_field_type t = true →
  n ∈ item_type_get t i ↔
  (∃ entry, entry ∈ get_fields o ∧
            choose_field o (name entry) i = Ok (Some (n, t))) ∨
  (t = RelationFields ∧ generic_name env o n).
Proof.
  intros (s1 & H1 & _ & Hf & Hr & Hma & _)%init_spec Hmeta Ht.
  destruct (update_fields_options_spec env (empty_inspector (class_of m))
              s1 o Hmeta H1) as (_ & _ & Hget & _).
  assert (item_type_get t i = item_type_get t s1) as ->
    by (destruct t; try discriminate; done).
  rewrite Hget. split.
  - intros [[Hno _]|[H|H]]; [congruence|by left|by right].
  - intros [H|H]; [right; by left|right; by right].
Qed.

(** X1: with a metadata descriptor, [fields] holds exactly the names of the
    direct entries whose [rel] is [None]. *)
Theorem fields_exact env m i o n :
  __init__ env m = Ok i →
  namespace (class_of m) !! "_meta" = Some (Value (PyOptions o)) →
  n ∈ fields i ↔ ∃ f, resolved_entry o f ∧ plain_field_entry f n.
Proof.
  intros Hi Hmeta.
  rewrite (field_sets_exact env m i o Fields n Hi Hmeta eq_refl).
  setoid_rewrite choose_field_Some. unfold resolved_entry. split.
  - intros [(entry & He & f & Hg & Hp)|[[=] _]]. eauto.
  - intros (f & (entry & He & Hg) & Hp). left. eauto.
Qed.

Lemma fields_exact_witness :
  __init__ env18 (AClass author) = Ok author_inspector ∧
  namespace (class_of (AClass author)) !! "_meta"
    = Some (Value (PyOptions author_options)) ∧
  ("name" ∈ fields author_inspector ↔
   ∃ f, resolved_entry author_options f ∧ plain_field_entry f "name").
Proof.
  split; [vm_compute; reflexivity|]. split; [vm_compute; reflexivity|].
  exact (fields_exact env18 (AClass author) author_inspector author_options
           "name" ltac:(vm_compute; reflexivity)
           ltac:(vm_compute; reflexivity)).
Defined.

(** X2: [many_fields] holds exactly the names of the direct entries whose
    relation has [through] and the accessor names of the reverse entries
    whose remote relation is multiple. *)
Theorem many_fields_exact env m i o n :
  __init__ env m = Ok i →
  namespace (class_of m) !! "_meta" = Some (Value (PyOptions o)) →
  n ∈ many_fields i ↔
  ∃ f, resolved_entry o f ∧
       (forward_relation true f n ∨ reverse_accessor true f n).
Proof.
  intros Hi Hmeta.
  rewrite (field_sets_exact env m i o ManyFields n Hi Hmeta eq_refl).
  setoid_rewrite choose_field_Some. unfold resolved_entry. split.
  - intros [(entry & He & f & Hg & Hp)|[[=] _]]. eauto.
  - intros (f & (entry & He & Hg) & Hp). left. eauto.
Qed.

Lemma many_fields_exact_witness :
  __init__ env18 (AClass author) = Ok author_inspector ∧
  namespace (class_of (AClass author)) !! "_meta"
    = Some (Value (PyOptions author_options)) ∧
  ("book_set" ∈ many_fields author_inspector ↔
   ∃ f, resolved_entry author_options f ∧
        (forward_relation true f "book_set" ∨
         reverse_accessor true f "book_set")).
Proof.
  split; [vm_compute; reflexivity|]. split; [vm_compute; reflexivity|].
  exact (many_fields_exact env18 (AClass author) author_inspector
           author_options "book_set" ltac:(vm_compute; reflexivity)
           ltac:(vm_compute; reflexivity)).
Defined.

(** X3: [relation_fields] holds exactly the names of the direct entries
    whose relation has no [through], the accessor names of the reverse
    entries whose remote relation is not multiple, and, when the generic
    module can be imported, the names of the generic foreign keys among the
    virtual fields. *)
Theorem relation_fields_exact env m i o n :
  __init__ env m = Ok i →
  namespace (class_of m) !! "_meta" = Some (Value (PyOptions o)) →
  n ∈ relation_fields i ↔
  (∃ f, resolved_entry o f ∧
        (forward_relation false f n ∨ reverse_accessor false f n)) ∨
  (contenttypes_generic env = true ∧
   ∃ v, v ∈ virtual_fields o ∧ generic_foreign_key v = true ∧ name v = n).
Proof.
  intros Hi Hmeta.
  rewrite (field_sets_exact env m i o RelationFields n Hi Hmeta eq_refl).
  setoid_rewrite choose_field_Some. unfold resolved_entry, generic_name.
  split.
  - intros [(entry & He & f & Hg & Hp)|[_ Hg]]; [left; eauto|by right].
  - intros [(f & (entry & He & Hg) & Hp)|Hg]; [left; eauto|by right].
Qed.

Lemma relation_fields_exact_witness :
  __init__ env18 (AClass tagged_item) = Ok tagged_item_inspector ∧
  "content_object" ∈ relation_fields tagged_item_inspector ∧
  ((∃ f, resolved_entry tagged_item_options f ∧
         (forward_relation false f "content_object" ∨
          reverse_accessor false f "content_object")) ∨
   (contenttypes_generic env18 = true ∧
    ∃ v, v ∈ virtual_fields tagged_item_options ∧
         generic_foreign_key v = true ∧ name v = "content_object")).
Proof.
  assert ("content_object" ∈ relation_fields tagged_item_inspector) as Hin
    by (simpl; set_solver).
  split; [vm_compute; reflexivity|]. split; [exact Hin|].
  exact (proj1 (relation_fields_exact env18 (AClass tagged_item)
                  tagged_item_inspector tagged_item_options "content_object"
                  ltac:(vm_compute; reflexivity)
                  ltac:(vm_compute; reflexivity)) Hin).
Defined.

(** ** When the passes succeed *)

Lemma choose_field_defined o x s :
  (∃ c, choose_field o x s = Ok c) ↔
  ∃ f, get_field o x = Some f ∧ classifiable f.
Proof.
  unfold choose_field, classifiable, is_direct.
  destruct (get_field o x) as [f|].
  2:{ split; [by intros [? [=]]|by intros (? & [=] & _)]. }
  split.
  - intros [c H]. exists f. split; [done|].
    destruct (negb (auto_created f) || concrete f); simpl in *.
    + by destruct (rel f).
    + destruct (get_accessor_name f) as [a|]; [|discriminate].
      destruct (field f) as [f'|]; [|discriminate].
      destruct (rel f') as [| |r] eqn:Hrel; [discriminate|discriminate|].
      by exists a, f', r.
  - intros (f0 & [= <-] & H).
    destruct (negb (auto_created f) || concrete f); simpl in *.
    + destruct (rel f); [done|eauto|eauto].
    + destruct H as (a & f' & r & -> & -> & ->). eauto.
Qed.

(** X4: with a metadata descriptor, [update_fields] returns exactly when
    every declared name resolves to an entry the loop can classify: a direct
    entry that has a [rel] attribute, or a reverse entry with an accessor
    name and a remote field whose [rel] is a relation object.  Otherwise the
    exception of the first offending entry propagates. *)
Theorem update_fields_succeeds_iff env s o :
  namespace_of (model s) !! "_meta" = Some (Value (PyOptions o)) →
  (∃ s', update_fields env s = Ok s') ↔
  ∀ entry, entry ∈ get_fields o →
           ∃ f, get_field o (name entry) = Some f ∧ classifiable f.
Proof.
  intros Hmeta. split.
  - intros [s' H] entry He.
    destruct (update_fields_options_spec env s s' o Hmeta H)
      as (_ & Hdef & _).
    apply (choose_field_defined o (name entry) s). by apply Hdef.
  - intros Hall. rewrite (update_fields_options _ _ _ Hmeta).
    destruct (for_each_add_chosen_total (choose_field o)
                (choose_field_stable o) (map name (get_fields o))
                (reset_fields s)) as [s1 H1].
    { intros x (entry & -> & He)%list_elem_of_fmap.
      apply choose_field_defined. by apply Hall. }
    rewrite H1. simpl. apply update_generic_foreign_keys_total.
Qed.

Lemma update_fields_succeeds_iff_witness :
  namespace_of (model (empty_inspector author)) !! "_meta"
    = Some (Value (PyOptions author_options)) ∧
  ((∃ s', update_fields env18 (empty_inspector author) = Ok s') ↔
   ∀ entry, entry ∈ get_fields author_options →
            ∃ f, get_field author_options (name entry) = Some f ∧
                 classifiable f).
Proof.
  split; [vm_compute; reflexivity|].
  exact (update_fields_succeeds_iff env18 (empty_inspector author)
           author_options ltac:(vm_compute; reflexivity)).
Defined.



(** ** The dir passes, exactly *)

(** X6: a name is in [attributes] exactly when [dir] lists it, it has no
    underscore prefix, it is not in [fields], its value is not a manager
    (when the manager class can be imported) and none of the checks of
    [ALL_BUT_ATTRIBUTES] accepts its value. *)
Theorem attributes_exact env m i n :
  __init__ env m = Ok i →
  n ∈ attributes i ↔
  n ∈ dir_of (model i) ∧ startswith n "_" = false ∧ (n ∉ fields i) ∧
  ∃ item answers,
    getattr (model i) n PyNone = Ok item ∧
    models_manager env && isinstance_Manager item = false ∧
    comprehension ALL_BUT_ATTRIBUTES item = Ok answers ∧
    any answers = false.
Proof.
  intros (s1 & _ & Hm & _ & _ & _ & Ha & _)%init_spec.
  by rewrite Ha, choose_attribute_Some_iff, Hm.
Qed.

Lemma attributes_exact_witness :
  __init__ env18 (AClass point) = Ok point_inspector ∧
  "origin" ∈ dir_of (model point_inspector) ∧
  startswith "origin" "_" = false ∧
  ("origin" ∉ fields point_inspector).
Proof.
  assert ("origin" ∈ attributes point_inspector) as Hin
    by (simpl; set_solver).
  apply (attributes_exact env18 (AClass point) point_inspector "origin"
           ltac:(vm_compute; reflexivity)) in Hin
    as (Hd & Hu & Hf & _).
  split; [vm_compute; reflexivity|]. done.
Defined.



(** X8: a manager object under a public name that is not a field name is
    skipped when the manager class can be imported and is an attribute
    when the import fails. *)
Theorem manager_attribute_iff_unavailable env m i n :
  __init__ env m = Ok i →
  n ∈ dir_of (model i) →
  getattr (model i) n PyNone = Ok PyManager →
  startswith n "_" = false →
  n ∉ fields i →
  n ∈ attributes i ↔ models_manager env = false.
Proof.
  intros (s1 & _ & Hm & _ & _ & _ & Ha & _)%init_spec Hn Hv Hu Hf.
  rewrite Hm in Hn. simpl in Hn.
  rewrite Ha, choose_attribute_Some_iff, Hv. split.
  - intros (_ & _ & _ & item & answers & [= <-] & Hma & _).
    by rewrite andb_true_r in Hma.
  - intros Hoff. split_and!; try done.
    exists PyManager. eexists. split; [done|].
    split; [by rewrite Hoff|]. split; reflexivity.
Qed.

Lemma manager_attribute_iff_unavailable_witness :
  __init__ env_bare (AClass article) = Ok (article_inspector env_bare) ∧
  models_manager env_bare = false ∧
  "objects" ∈ attributes (article_inspector env_bare).
Proof.
  split; [vm_compute; reflexivity|]. split; [reflexivity|].
  apply (manager_attribute_iff_unavailable env_bare (AClass article)
           (article_inspector env_bare) "objects"
           ltac:(vm_compute; reflexivity)
           ltac:(simpl; set_solver) ltac:(vm_compute; reflexivity) eq_refl
           ltac:(simpl; set_solver)).
  reflexivity.
Defined.

(** X9: a name is in [properties] exactly when [dir] lists it and its value
    is a property; the pass filters neither underscore names nor field
    names nor the denylist. *)
Theorem properties_exact env m i n :
  __init__ env m = Ok i →
  n ∈ properties i ↔
  n ∈ dir_of (model i) ∧
  ∃ v, getattr (model i) n PyNone = Ok v ∧ isinstance_property v = true.
Proof.
  intros (s1 & _ & Hm & _ & _ & _ & _ & _ & _ & Hp & _)%init_spec.
  by rewrite Hp, choose_property_Some, Hm.
Qed.

Lemma properties_exact_witness :
  __init__ env18 (AClass account) = Ok account_inspector ∧
  "_secret" ∈ dir_of (model account_inspector) ∧
  getattr (model account_inspector) "_secret" PyNone = Ok PyProperty ∧
  "_secret" ∈ properties account_inspector.
Proof.
  assert ("_secret" ∈ dir_of (model account_inspector)) as Hd
    by (simpl; set_solver).
  split; [vm_compute; reflexivity|]. split; [done|]. split; [reflexivity|].
  apply (properties_exact env18 (AClass account) account_inspector "_secret"
           ltac:(vm_compute; reflexivity)).
  split; [done|]. by exists PyProperty.
Defined.

(** ** Edge cases of [is_method_without_args] *)

(** X10: a function or method whose every parameter has a default, the
    receiver included, or that has no parameter at all, is not counted:
    the slice leaves no receiver. *)
Theorem all_defaults_not_method f :
  (length (args (argspec f))
   ≤ length (default [] (defaults (argspec f))))%nat →
  is_method_without_args (PyFunction f) = Ok false ∧
  is_method_without_args (PyMethod (ImFunction f)) = Ok false.
Proof.
  intros Hle.
  assert (bool_decide
            (len (match defaults (argspec f) with
                  | Some (d :: ds) =>
                      slice_to_neg (args (argspec f)) (len (d :: ds))
                  | _ => args (argspec f)
                  end) = 1) = false) as Hb.
  { apply bool_decide_eq_false. rewrite len_without_defaults.
    unfold receiver_required. lia. }
  split; [change (Ok (bool_decide
                     (len (match defaults (argspec f) with
                           | Some (d :: ds) =>
                               slice_to_neg (args (argspec f))
                                 (len (d :: ds))
                           | _ => args (argspec f)
                           end) = 1)) = Ok false)..];
    by rewrite Hb.
Qed.

Lemma all_defaults_not_method_witness :
  is_method_without_args
    (method_of ["self"] (Some [DNone])) = Ok false.
Proof.
  apply (all_defaults_not_method (function_of ["self"] (Some [DNone]))).
  simpl. lia.
Defined.

(** X11: [is_method_without_args] answers [False] for every value that is
    neither a function nor a method, and it raises exactly on a method
    object over a callable that is not a Python function, with the
    [TypeError] of [getargspec]. *)
Theorem is_method_without_args_outcomes v :
  (inspect.isfunction v = false → inspect.ismethod v = false →
   is_method_without_args v = Ok false) ∧
  (∀ e, is_method_without_args v = Raise e ↔
        v = PyMethod ImCallable ∧ e = TypeError).
Proof.
  split.
  - unfold is_method_without_args. by intros -> ->.
  - intros e. split.
    + intros H. pose proof (is_method_without_args_raises _ _ H) as ->.
      split; [done|]. by injection H as <-.
    + by intros [-> ->].
Qed.

Lemma is_method_without_args_outcomes_witness :
  is_method_without_args (PyData true) = Ok false ∧
  is_method_without_args (PyMethod ImCallable) = Raise TypeError.
Proof.
  split.
  - apply (is_method_without_args_outcomes (PyData true)); reflexivity.
  - by apply (is_method_without_args_outcomes (PyMethod ImCallable)).
Defined.

(** ** [_add_item] *)

Lemma inspector_eq s s' :
  model s = model s' →
  (∀ t, item_type_get t s = item_type_get t s') →
  items s = items s' →
  s = s'.
Proof.
  intros Hm Hget Hit.
  pose proof (Hget Fields). pose proof (Hget RelationFields).
  pose proof (Hget ManyFields). pose proof (Hget Attributes).
  pose proof (Hget Methods). pose proof (Hget Properties).
  destruct s, s'. simpl in *. by subst.
Qed.

(** X12: [_add_item] keeps [items] equal to the union of the six sets. *)
Theorem add_item_keeps_union n t s :
  items_is_union s → items_is_union (_add_item n t s).
Proof.
  unfold items_is_union. intros H.
  rewrite add_item_items, H. destruct t; simpl; set_solver.
Qed.

Lemma add_item_keeps_union_witness :
  items_is_union (empty_inspector point) ∧
  items_is_union (_add_item "norm" Methods (empty_inspector point)).
Proof.
  assert (items_is_union (empty_inspector point)) as H
    by (unfold items_is_union; simpl; set_solver).
  split; [exact H|].
  exact (add_item_keeps_union "norm" Methods (empty_inspector point) H).
Defined.

(** X13: adding a name twice is adding it once, and two additions commute:
    the sets keep neither duplicates nor insertion order. *)
Theorem add_item_idempotent_commutes n t n' t' s :
  _add_item n t (_add_item n t s) = _add_item n t s ∧
  _add_item n t (_add_item n' t' s) = _add_item n' t' (_add_item n t s).
Proof.
  split; apply inspector_eq.
  - by rewrite !add_item_model.
  - intros t0. apply set_eq. intros x. rewrite !elem_of_add_item. tauto.
  - rewrite !add_item_items. set_solver.
  - by rewrite !add_item_model.
  - intros t0. apply set_eq. intros x. rewrite !elem_of_add_item. tauto.
  - rewrite !add_item_items. set_solver.
Qed.

(** ** The passes on any inspector *)

(** X14: [update_fields] rewrites only the three field sets: it keeps
    [model], [attributes], [methods] and [properties], and it removes no
    name from [items], not even a name it drops from a field set. *)
Theorem update_fields_frame env s s' :
  update_fields env s = Ok s' →
  model s' = model s ∧ attributes s' = attributes s ∧
  methods s' = methods s ∧ properties s' = properties s ∧
  items s ⊆ items s'.
Proof.
  intros (Hm & Ho & Hit)%update_fields_spec.
  split; [done|].
  split; [exact (Ho Attributes eq_refl)|].
  split; [exact (Ho Methods eq_refl)|].
  split; [exact (Ho Properties eq_refl)|].
  intros n Hn. apply Hit. by left.
Qed.

Lemma update_fields_frame_witness :
  update_fields env18 photo_inspector = Ok photo_inspector ∧
  methods photo_inspector = {["rotate"]}.
Proof.
  split; [vm_compute; reflexivity|].
  destruct (update_fields_frame env18 photo_inspector photo_inspector
              ltac:(vm_compute; reflexivity)) as (_ & _ & Hme & _).
  exact Hme.
Defined.

(** X15: each of the three passes over [dir] rewrites only its own set: it
    keeps [model] and the three field sets, and it removes no name from
    [items]. *)
Theorem dir_passes_frame env s s' :
  update_attributes env s = Ok s' ∨ update_methods s = Ok s' ∨
  update_properties s = Ok s' →
  model s' = model s ∧ fields s' = fields s ∧
  relation_fields s' = relation_fields s ∧
  many_fields s' = many_fields s ∧
  items s ⊆ items s'.
Proof.
  intros [H|[H|H]].
  - apply update_attributes_spec in H as (Hm & Ho & _ & _ & Hit).
    split; [done|].
    split; [exact (Ho Fields ltac:(done))|].
    split; [exact (Ho RelationFields ltac:(done))|].
    split; [exact (Ho ManyFields ltac:(done))|].
    rewrite Hit. set_solver.
  - apply update_methods_spec in H as (Hm & Ho & _ & _ & Hit).
    split; [done|].
    split; [exact (Ho Fields ltac:(done))|].
    split; [exact (Ho RelationFields ltac:(done))|].
    split; [exact (Ho ManyFields ltac:(done))|].
    rewrite Hit. set_solver.
  - apply update_properties_spec in H as (Hm & Ho & _ & _ & Hit).
    split; [done|].
    split; [exact (Ho Fields ltac:(done))|].
    split; [exact (Ho RelationFields ltac:(done))|].
    split; [exact (Ho ManyFields ltac:(done))|].
    rewrite Hit. set_solver.
Qed.

Lemma dir_passes_frame_witness :
  update_methods photo_inspector = Ok photo_inspector ∧
  fields photo_inspector = {["caption"]}.
Proof.
  split; [vm_compute; reflexivity|].
  destruct (dir_passes_frame env18 photo_inspector photo_inspector
              ltac:(right; left; vm_compute; reflexivity))
    as (_ & Hf & _).
  exact Hf.
Defined.

(** ** Running the passes again, and the order of [dir] *)

Lemma choose_attribute_ns env n s s' :
  namespace_of (model s) = namespace_of (model s') → fields s = fields s' →
  choose_attribute env n s = choose_attribute env n s'.
Proof.
  intros Hns Hf. unfold choose_attribute, getattr. by rewrite Hns, Hf.
Qed.

Lemma choose_method_ns n s s' :
  namespace_of (model s) = namespace_of (model s') → fields s = fields s' →
  choose_method n s = choose_method n s'.
Proof.
  intros Hns Hf. unfold choose_method, getattr. by rewrite Hns, Hf.
Qed.

Lemma choose_property_ns n s s' :
  namespace_of (model s) = namespace_of (model s') →
  choose_property n s = choose_property n s'.
Proof. intros Hns. unfold choose_property, getattr. by rewrite Hns. Qed.

(** The field pass reads the class only through its namespace and ignores
    what the receiver held. *)
Lemma update_fields_transfer env s s' s1 :
  namespace_of (model s) = namespace_of (model s') →
  update_fields env s = Ok s1 →
  ∃ s1', update_fields env s' = Ok s1' ∧
         ∀ t, is_field_type t = true →
              item_type_get t s1' = item_type_get t s1.
Proof.
  intros Hns H.
  destruct (update_fields_cases _ _ _ H) as [(v & Hv & Hno & ->)|[o Hmeta]].
  - exists (reset_fields s'). split.
    + apply (update_fields_no_meta env s' v); [|done].
      unfold getattr in *. by rewrite <- Hns.
    + intros t Ht. rewrite !item_type_get_reset_fields. by rewrite Ht.
  - assert (namespace_of (model s') !! "_meta" = Some (Value (PyOptions o)))
      as Hmeta' by (by rewrite <- Hns).
    destruct (update_fields_options_spec env s s1 o Hmeta H)
      as (_ & Hdef & Hget & _).
    assert (∃ s1', update_fields env s' = Ok s1') as [s1' H'].
    { rewrite (update_fields_options _ _ _ Hmeta').
      destruct (for_each_add_chosen_total (choose_field o)
                  (choose_field_stable o) (map name (get_fields o))
                  (reset_fields s')) as [sL HL].
      { intros x (entry & -> & He)%list_elem_of_fmap.
        destruct (Hdef entry He) as [c Hc]. by exists c. }
      rewrite HL. simpl. apply update_generic_foreign_keys_total. }
    exists s1'. split; [done|].
    destruct (update_fields_options_spec env s' s1' o Hmeta' H')
      as (_ & _ & Hget' & _).
    intros t Ht. apply set_eq. intros n. rewrite Hget, Hget', Ht.
    split; (intros [[[=] _]|X]; right; exact X).
Qed.

Lemma rerun_eq s s' t0 :
  model s' = model s →
  (∀ t, t ≠ t0 → item_type_get t s' = item_type_get t s) →
  item_type_get t0 s' = item_type_get t0 s →
  items s' = items s ∪ item_type_get t0 s' →
  items_is_union s →
  s' = s.
Proof.
  intros Hm Ho H0 Hit Hu. apply inspector_eq; [done| |].
  - intros t. destruct (decide (t = t0)) as [->|Hne]; auto.
  - rewrite Hit, H0. unfold items_is_union in Hu. rewrite Hu.
    destruct t0; simpl; set_solver.
Qed.

(** X16: on a constructed inspector whose model is unchanged, running any
    of the four passes again returns the inspector as it is. *)
Theorem passes_rerun_noop env m i :
  __init__ env m = Ok i →
  update_fields env i = Ok i ∧ update_attributes env i = Ok i ∧
  update_methods i = Ok i ∧ update_properties i = Ok i.
Proof.
  intros Hi. pose proof (init_defined _ _ _ Hi) as [Hda Hdp].
  apply init_spec in Hi
    as (s1 & H1 & Hm & Hf & Hr & Hma & Ha & Hme & Hd & Hp & Hit).
  assert (dir_of (model i) = dir (class_of m)) as Hdir by (by rewrite Hm).
  split_and!.
  - destruct (update_fields_transfer env (empty_inspector (class_of m)) i s1)
      as (s1' & H' & Hsets); [by rewrite Hm|done|].
    rewrite H'. f_equal.
    destruct (update_fields_spec _ _ _ H') as (Hm' & Ho' & Hit').
    pose proof (Hsets Fields eq_refl) as HF.
    pose proof (Hsets RelationFields eq_refl) as HR.
    pose proof (Hsets ManyFields eq_refl) as HM. simpl in HF, HR, HM.
    apply inspector_eq; [done| |].
    + intros t. destruct t; simpl; try congruence;
        [exact (Ho' Attributes eq_refl)|exact (Ho' Methods eq_refl)
        |exact (Ho' Properties eq_refl)].
    + apply set_eq. intros n. rewrite Hit', HF, HR, HM, <- Hf, <- Hr, <- Hma.
      rewrite Hit. set_solver.
  - destruct (update_attributes_total env i) as [s' H'].
    { intros n Hn. apply Hda. by rewrite <- Hdir. }
    rewrite H'. f_equal.
    destruct (update_attributes_spec _ _ _ H')
      as (Hm' & Ho' & Hc' & _ & Hit').
    apply (rerun_eq i s' Attributes); try done.
    apply set_eq. intros n. simpl. by rewrite Hc', Ha, Hdir.
  - destruct (update_methods_total i) as [s' H'].
    { intros n Hn. apply Hd. by rewrite <- Hdir. }
    rewrite H'. f_equal.
    destruct (update_methods_spec _ _ H') as (Hm' & Ho' & Hc' & _ & Hit').
    apply (rerun_eq i s' Methods); try done.
    apply set_eq. intros n. simpl. by rewrite Hc', Hme, Hdir.
  - destruct (update_properties_total i) as [s' H'].
    { intros n Hn. apply Hdp. by rewrite <- Hdir. }
    rewrite H'. f_equal.
    destruct (update_properties_spec _ _ H') as (Hm' & Ho' & Hc' & _ & Hit').
    apply (rerun_eq i s' Properties); try done.
    apply set_eq. intros n. simpl. by rewrite Hc', Hp, Hdir.
Qed.

Lemma passes_rerun_noop_witness :
  __init__ env18 (AClass author) = Ok author_inspector ∧
  update_fields env18 author_inspector = Ok author_inspector ∧
  update_attributes env18 author_inspector = Ok author_inspector ∧
  update_methods author_inspector = Ok author_inspector ∧
  update_properties author_inspector = Ok author_inspector.
Proof.
  split; [vm_compute; reflexivity|].
  exact (passes_rerun_noop env18 (AClass author) author_inspector
           ltac:(vm_compute; reflexivity)).
Defined.

(** X17: the result depends on [dir] only through the set of names it
    lists: two classes with the same namespace whose [dir] lists hold the
    same names, in any order and any number of times, are classified
    alike, and construction succeeds on one when it does on the other. *)
Theorem dir_order_irrelevant env m1 m2 i1 :
  namespace (class_of m1) = namespace (class_of m2) →
  (∀ n, n ∈ dir (class_of m1) ↔ n ∈ dir (class_of m2)) →
  __init__ env m1 = Ok i1 →
  ∃ i2, __init__ env m2 = Ok i2 ∧
        (∀ t, item_type_get t i2 = item_type_get t i1) ∧
        items i2 = items i1.
Proof.
  intros Hns Hdir Hi1.
  pose proof (init_defined _ _ _ Hi1) as [Hda1 Hdp1].
  pose proof Hi1 as
    (s1 & H1 & Hm1 & Hf1 & Hr1 & Hma1 & Ha1 & Hme1 & Hd1 & Hp1 & Hit1)
      %init_spec.
  destruct (update_fields_transfer env (empty_inspector (class_of m1))
              (empty_inspector (class_of m2)) s1 Hns H1)
    as (s2 & H2 & Hsets).
  pose proof (Hsets Fields eq_refl) as HF.
  pose proof (Hsets RelationFields eq_refl) as HR.
  pose proof (Hsets ManyFields eq_refl) as HM. simpl in HF, HR, HM.
  destruct (update_fields_spec _ _ _ H2) as (Hms2 & _). simpl in Hms2.
  assert (namespace_of (model s2) = namespace_of (model i1)) as Hns2
    by (by rewrite Hms2, Hm1).
  destruct (init_total env m2 s2 H2) as [i2 Hi2].
  { intros n Hn. rewrite (choose_attribute_ns env n s2 i1);
      [apply Hda1; by apply Hdir|done|congruence]. }
  { intros n Hn. rewrite (choose_method_ns n s2 i1);
      [apply Hd1; by apply Hdir|done|congruence]. }
  { intros n Hn. rewrite (choose_property_ns n s2 i1);
      [apply Hdp1; by apply Hdir|done]. }
  exists i2. split; [done|].
  apply init_spec in Hi2
    as (s2' & H2' & Hm2 & Hf2 & Hr2 & Hma2 & Ha2 & Hme2 & _ & Hp2 & Hit2).
  assert (s2' = s2) as -> by congruence.
  assert (namespace_of (model i2) = namespace_of (model i1)) as Hnsi
    by (by rewrite Hm2, Hm1).
  assert (fields i2 = fields i1) as Hfi by congruence.
  assert (attributes i2 = attributes i1) as Hai.
  { apply set_eq. intros n.
    by rewrite Ha2, Ha1, Hdir, (choose_attribute_ns env n i2 i1). }
  assert (methods i2 = methods i1) as Hmei.
  { apply set_eq. intros n.
    by rewrite Hme2, Hme1, Hdir, (choose_method_ns n i2 i1). }
  assert (properties i2 = properties i1) as Hpi.
  { apply set_eq. intros n.
    by rewrite Hp2, Hp1, Hdir, (choose_property_ns n i2 i1). }
  split.
  - intros t. destruct t; simpl; congruence.
  - rewrite Hit2, Hit1. congruence.
Qed.

Lemma dir_order_irrelevant_witness :
  namespace (class_of (AClass photo))
    = namespace (class_of (AClass photo_shuffled)) ∧
  __init__ env18 (AClass photo) = Ok photo_inspector ∧
  ∃ i2, __init__ env18 (AClass photo_shuffled) = Ok i2 ∧
        methods i2 = methods photo_inspector.
Proof.
  split; [reflexivity|]. split; [vm_compute; reflexivity|].
  destruct (dir_order_irrelevant env18 (AClass photo) (AClass photo_shuffled)
              photo_inspector eq_refl
              ltac:(intros n; simpl; set_solver)
              ltac:(vm_compute; reflexivity)) as (i2 & Hi2 & Hsets & _).
  exists i2. split; [done|]. exact (Hsets Methods).
Defined.

(** ** [items] after construction *)

(** X18: after construction [items] is the union of the six sets;
    [attributes], [methods] and [properties] are pairwise disjoint, and
    [fields] is disjoint from [attributes] and from [methods]. *)
Theorem items_union_after_construction env m i :
  __init__ env m = Ok i →
  items_is_union i ∧
  attributes i ## methods i ∧
  attributes i ## properties i ∧
  methods i ## properties i ∧
  fields i ## attributes i ∧
  fields i ## methods i.
Proof.
  intros (s1 & _ & Hm & _ & _ & _ & Ha & Hme & _ & Hp & Hit)%init_spec.
  split; [done|].
  split_and!; intros n.
  - intros [_ Hc]%Ha [_ Hc']%Hme.
    apply choose_attribute_Some_iff
      in Hc as (_ & _ & item & answers & Hitem & _ & Hans & Hany).
    apply choose_method_Some in Hc' as (_ & _ & _ & func & Hfunc & Hmw).
    assert (func = item) as -> by congruence.
    apply (attribute_not_function _ _ Hans) in Hany as [Hk _].
    apply is_method_without_args_kind in Hmw. congruence.
  - intros [_ Hc]%Ha [_ Hc']%Hp.
    apply choose_attribute_Some_iff
      in Hc as (_ & _ & item & answers & Hitem & _ & Hans & Hany).
    apply choose_property_Some in Hc' as (v & Hv & Hprop).
    assert (v = item) as -> by congruence.
    apply (attribute_not_function _ _ Hans) in Hany as [_ Hk]. congruence.
  - intros [_ Hc]%Hme [_ Hc']%Hp.
    apply choose_method_Some in Hc as (_ & _ & _ & func & Hfunc & Hmw).
    apply choose_property_Some in Hc' as (v & Hv & Hprop).
    assert (v = func) as -> by congruence.
    apply is_method_without_args_kind in Hmw.
    apply property_not_function in Hprop. congruence.
  - intros Hf [_ Hc]%Ha.
    by apply choose_attribute_Some_iff in Hc as (_ & Hnf & _).
  - intros Hf [_ Hc]%Hme.
    by apply choose_method_Some in Hc as (_ & Hnf & _).
Qed.

Lemma items_union_after_construction_witness :
  __init__ env18 (AClass tagged_item) = Ok tagged_item_inspector ∧
  items_is_union tagged_item_inspector ∧
  fields tagged_item_inspector ## attributes tagged_item_inspector.
Proof.
  pose proof (items_union_after_construction env18 (AClass tagged_item)
                tagged_item_inspector ltac:(vm_compute; reflexivity)) as H.
  split; [vm_compute; reflexivity|]. split; apply H.
Defined.
(** ** The store: sets as shared objects *)

Lemma set_read_add_same r x h :
  (r < length h)%nat → set_read r (set_add r x h) = {[x]} ∪ set_read r h.
Proof.
  intros Hr. unfold set_read, set_add. rewrite list_lookup_alter_eq.
  destruct (lookup_lt_is_Some_2 h r Hr) as [s Hs]. by rewrite Hs.
Qed.

Lemma lookup_set_add_other r r' x h :
  r ≠ r' → set_add r x h !! r' = h !! r'.
Proof. intros. unfold set_add. by rewrite list_lookup_alter_ne. Qed.

Lemma set_read_add_other r r' x h :
  r ≠ r' → set_read r' (set_add r x h) = set_read r' h.
Proof. intros. unfold set_read. by rewrite lookup_set_add_other. Qed.

Lemma length_set_add r x h : length (set_add r x h) = length h.
Proof. unfold set_add. by rewrite length_alter. Qed.

Lemma length_add_item_obj self n r h :
  length (add_item_obj self n r h) = length h.
Proof. unfold add_item_obj. by rewrite !length_set_add. Qed.

Lemma set_read_new_old r h : (r < length h)%nat →
  set_read r (h ++ [∅])%list = set_read r h.
Proof. intros. unfold set_read. by rewrite lookup_app_l. Qed.

Lemma set_read_new h : set_read (length h) (h ++ [∅])%list = ∅.
Proof. unfold set_read. by rewrite list_lookup_middle. Qed.

Lemma references_lookup t self :
  references self !! ref_index t = Some (item_type_ref t self).
Proof. by destruct t. Qed.

Lemma references_items self :
  references self !! 5%nat = Some (items_attr self).
Proof. done. Qed.

Lemma item_type_ref_elem t self : item_type_ref t self ∈ references self.
Proof. eapply list_elem_of_lookup_2, references_lookup. Qed.

Lemma items_attr_elem self : items_attr self ∈ references self.
Proof. eapply list_elem_of_lookup_2, references_items. Qed.

Lemma ref_index_inj t t' : ref_index t = ref_index t' → t = t'.
Proof. by destruct t, t'. Qed.

Lemma ref_index_items t : ref_index t ≠ 5%nat.
Proof. by destruct t. Qed.

Lemma item_type_ref_inj self t t' :
  NoDup (references self) →
  item_type_ref t self = item_type_ref t' self → t = t'.
Proof.
  intros Hnd Heq. apply ref_index_inj.
  eapply (NoDup_lookup _ _ _ _ Hnd); [apply references_lookup|].
  rewrite Heq. apply references_lookup.
Qed.

Lemma item_type_ref_items self t :
  NoDup (references self) → item_type_ref t self ≠ items_attr self.
Proof.
  intros Hnd Heq. apply (ref_index_items t).
  eapply (NoDup_lookup _ _ _ _ Hnd); [apply references_lookup|].
  rewrite Heq. apply references_items.
Qed.

Lemma represents_ref_lt self h s t :
  represents self h s → (item_type_ref t self < length h)%nat.
Proof.
  intros (_ & _ & _ & _ & Hlt). rewrite Forall_forall in Hlt.
  apply Hlt, item_type_ref_elem.
Qed.

Lemma represents_items_lt self h s :
  represents self h s → (items_attr self < length h)%nat.
Proof.
  intros (_ & _ & _ & _ & Hlt). rewrite Forall_forall in Hlt.
  apply Hlt, items_attr_elem.
Qed.

Lemma represents_fields self h s a :
  represents self h s →
  set_contains (fields_attr self) a h = bool_decide (a ∈ fields s).
Proof.
  intros (_ & Ht & _). unfold set_contains.
  change (fields_attr self) with (item_type_ref Fields self).
  by rewrite (Ht Fields).
Qed.

Lemma untouched_refl self h : untouched self h h.
Proof. by split. Qed.

Lemma untouched_trans self h1 h2 h3 :
  untouched self h1 h2 → untouched self h2 h3 → untouched self h1 h3.
Proof.
  intros [Hl1 H1] [Hl2 H2]. split; [congruence|].
  intros r Hr. by rewrite H2, H1.
Qed.

(** [_add_item] on the store is [_add_item] of the functional model: the
    set it is handed and [items] are two objects, distinct from each other
    and from the other five. *)
Lemma add_item_obj_represents self h s n t :
  represents self h s →
  represents self (add_item_obj self n (item_type_ref t self) h)
    (_add_item n t s).
Proof.
  intros Hrep. pose proof (represents_ref_lt _ _ _ t Hrep) as Hlt.
  pose proof (represents_items_lt _ _ _ Hrep) as Hlti.
  destruct Hrep as (Hm & Ht & Hi & Hnd & Hall).
  pose proof (item_type_ref_items self t Hnd) as Hne.
  unfold add_item_obj. repeat split.
  - by rewrite add_item_model.
  - intros t'. destruct (decide (t' = t)) as [->|Hneq].
    + rewrite set_read_add_other by done.
      rewrite set_read_add_same by done.
      by rewrite add_item_same, Ht.
    + rewrite set_read_add_other
        by (intros Heq; apply (item_type_ref_items self t' Hnd); done).
      rewrite set_read_add_other
        by (intros Heq; apply Hneq; symmetry;
            by apply (item_type_ref_inj self)).
      by rewrite add_item_other, Ht.
  - rewrite set_read_add_same by (by rewrite length_set_add).
    rewrite set_read_add_other by done.
    by rewrite add_item_items, Hi.
  - done.
  - by rewrite !length_set_add.
Qed.

Lemma add_item_obj_untouched self h n t :
  untouched self h (add_item_obj self n (item_type_ref t self) h).
Proof.
  split; [apply length_add_item_obj|].
  intros r Hr. unfold add_item_obj.
  rewrite lookup_set_add_other
    by (intros <-; apply Hr, items_attr_elem).
  apply lookup_set_add_other. intros <-. apply Hr, item_type_ref_elem.
Qed.

Lemma step_skip self h s :
  represents self h s → step_simulates (Ok s) (Ok h) self h.
Proof. intros Hrep. exists h. auto using untouched_refl. Qed.

Lemma step_add self h s n t :
  represents self h s →
  step_simulates (Ok (_add_item n t s))
    (Ok (add_item_obj self n (item_type_ref t self) h)) self h.
Proof.
  intros Hrep. eexists. split; [done|].
  split; [by apply add_item_obj_represents|apply add_item_obj_untouched].
Qed.

Lemma update_fields_obj_body_sim self o f h s :
  represents self h s →
  step_simulates (update_fields_body o f s)
    (update_fields_obj_body self o f h) self h.
Proof.
  intros Hrep. unfold update_fields_body, update_fields_obj_body.
  destruct (get_field o f) as [f0|]; [|done].
  cbn zeta. destruct (negb _).
  - destruct (get_accessor_name f0); [|done].
    destruct (field f0) as [f1|]; [|done].
    destruct (rel f1) as [| |r]; try done.
    destruct (multiple r).
    + by apply (step_add _ _ _ _ ManyFields).
    + by apply (step_add _ _ _ _ RelationFields).
  - destruct (rel f0) as [| |r]; try done.
    + by apply (step_add _ _ _ _ Fields).
    + destruct (has_through r).
      * by apply (step_add _ _ _ _ ManyFields).
      * by apply (step_add _ _ _ _ RelationFields).
Qed.

Lemma virtual_fields_obj_body_sim self f h s :
  represents self h s →
  step_simulates (virtual_fields_body f s)
    (virtual_fields_obj_body self f h) self h.
Proof.
  intros Hrep. unfold virtual_fields_body, virtual_fields_obj_body.
  destruct (generic_foreign_key f).
  - by apply (step_add _ _ _ _ RelationFields).
  - by apply step_skip.
Qed.

Lemma update_attributes_obj_body_sim env self a h s :
  represents self h s →
  step_simulates (update_attributes_body env a s)
    (update_attributes_obj_body env self a h) self h.
Proof.
  intros Hrep. unfold update_attributes_body, update_attributes_obj_body.
  rewrite (represents_fields _ _ _ a Hrep).
  destruct Hrep as [Hm Hrest]. rewrite Hm.
  assert (Hrep : represents self h s) by by split.
  destruct (_ || _); [by apply step_skip|].
  destruct (getattr (model s) a PyNone) as [item|e]; [|done].
  cbn [bind]. destruct (is_manager env item) as [[]|e]; cbn [bind];
    [by apply step_skip| |done].
  destruct (comprehension ALL_BUT_ATTRIBUTES item) as [answers|e]; [|done].
  cbn [bind]. destruct (any answers); [by apply step_skip|].
  by apply (step_add _ _ _ _ Attributes).
Qed.

Lemma update_methods_obj_body_sim self m h s :
  represents self h s →
  step_simulates (update_methods_body m s)
    (update_methods_obj_body self m h) self h.
Proof.
  intros Hrep. unfold update_methods_body, update_methods_obj_body.
  rewrite (represents_fields _ _ _ m Hrep).
  destruct Hrep as [Hm Hrest]. rewrite Hm.
  assert (Hrep : represents self h s) by by split.
  destruct (_ || _); [by apply step_skip|].
  destruct (bool_decide _); [by apply step_skip|].
  destruct (getattr (model s) m PyNone) as [func|e]; [|done].
  cbn [bind]. destruct (is_method_without_args func) as [[]|e]; cbn [bind];
    [|by apply step_skip|done].
  by apply (step_add _ _ _ _ Methods).
Qed.

Lemma update_properties_obj_body_sim self n h s :
  represents self h s →
  step_simulates (update_properties_body n s)
    (update_properties_obj_body self n h) self h.
Proof.
  intros Hrep. unfold update_properties_body, update_properties_obj_body.
  destruct Hrep as [Hm Hrest]. rewrite Hm.
  assert (Hrep : represents self h s) by by split.
  destruct (getattr (model s) n PyNone) as [v|e]; [|done].
  cbn [bind]. destruct (isinstance_property v); [|by apply step_skip].
  by apply (step_add _ _ _ _ Properties).
Qed.

(** A loop whose iterations are simulated is simulated. *)
Lemma for_each_sim {A} (body : A → InspectModel → result InspectModel)
    (body_obj : A → list (gset string) → result (list (gset string)))
    self l :
  (∀ x h s, represents self h s →
     step_simulates (body x s) (body_obj x h) self h) →
  ∀ h s, represents self h s →
    step_simulates (for_each l body s) (for_each l body_obj h) self h.
Proof.
  intros Hbody. induction l as [|x l IH]; intros h s Hrep; simpl.
  - by apply step_skip.
  - specialize (Hbody x h s Hrep). unfold step_simulates in Hbody.
    destruct (body x s) as [s1|e]; simpl.
    + destruct Hbody as (h1 & -> & Hrep1 & Hun1). simpl.
      specialize (IH h1 s1 Hrep1). unfold step_simulates in IH |- *.
      destruct (for_each l body s1) as [s2|e]; [|done].
      destruct IH as (h2 & -> & Hrep2 & Hun2).
      exists h2. eauto using untouched_trans.
    + by rewrite Hbody.
Qed.

(** ** Making a set and rebinding an attribute *)

Lemma item_type_ref_bind_same t r self :
  item_type_ref t (bind_ref t r self) = r.
Proof. by destruct t. Qed.

Lemma item_type_ref_bind_other t t' r self :
  t' ≠ t → item_type_ref t' (bind_ref t r self) = item_type_ref t' self.
Proof. by destruct t, t'. Qed.

Lemma item_type_get_clear_same t s : item_type_get t (clear_type t s) = ∅.
Proof. by destruct t. Qed.

Lemma item_type_get_clear_other t t' s :
  t' ≠ t → item_type_get t' (clear_type t s) = item_type_get t' s.
Proof. by destruct t, t'. Qed.

Lemma references_bind t r self :
  references (bind_ref t r self) = <[ref_index t := r]> (references self).
Proof. by destruct t. Qed.

Lemma elem_of_insert_inv {A} (l : list A) i x z :
  z ∈ <[i:=x]> l → z = x ∨ z ∈ l.
Proof.
  revert i. induction l as [|y l IH]; intros [|i]; simpl; auto.
  - rewrite !elem_of_cons. tauto.
  - rewrite !elem_of_cons. intros [->|H%IH]; tauto.
Qed.

Lemma NoDup_insert_fresh {A} (l : list A) i x :
  NoDup l → (x ∉ l) → NoDup (<[i:=x]> l).
Proof.
  revert i. induction l as [|y l IH]; intros [|i]; simpl; auto.
  - rewrite !NoDup_cons, not_elem_of_cons. tauto.
  - rewrite !NoDup_cons, not_elem_of_cons.
    intros [Hy Hnd] [Hxy Hx]. split; [|by apply IH].
    intros [->|Hin]%elem_of_insert_inv; done.
Qed.

Lemma elem_of_references_bind t r r' self :
  r' ∈ references (bind_ref t r self) → r' = r ∨ r' ∈ references self.
Proof. rewrite references_bind. apply elem_of_insert_inv. Qed.

Lemma NoDup_references_bind t r self :
  NoDup (references self) → (r ∉ references self) →
  NoDup (references (bind_ref t r self)).
Proof. rewrite references_bind. apply NoDup_insert_fresh. Qed.

Lemma represents_rebind self h s t :
  represents self h s →
  represents (bind_ref t (length h) self) (h ++ [∅])%list (clear_type t s).
Proof.
  intros Hrep.
  assert (Hlt : ∀ r : nat, r ∈ references self → (r < length h)%nat).
  { destruct Hrep as (_ & _ & _ & _ & Hall).
    by rewrite Forall_forall in Hall. }
  destruct Hrep as (Hm & Ht & Hi & Hnd & Hall).
  repeat split.
  - by destruct t.
  - intros t'. destruct (decide (t' = t)) as [->|Hne].
    + by rewrite item_type_ref_bind_same, set_read_new,
        item_type_get_clear_same.
    + rewrite item_type_ref_bind_other, item_type_get_clear_other by done.
      rewrite set_read_new_old by apply Hlt, item_type_ref_elem.
      apply Ht.
  - replace (items_attr (bind_ref t (length h) self))
      with (items_attr self) by by destruct t.
    replace (items (clear_type t s)) with (items s) by by destruct t.
    rewrite set_read_new_old by apply Hlt, items_attr_elem. done.
  - apply NoDup_references_bind; [done|].
    intros Hin%Hlt. lia.
  - rewrite Forall_forall. intros r Hr. rewrite length_app. simpl.
    apply elem_of_references_bind in Hr as [->|Hr%Hlt]; lia.
Qed.

Lemma extends_refl self h : extends self h self h.
Proof. repeat split; auto. Qed.

Lemma extends_trans self1 h1 self2 h2 self3 h3 :
  extends self1 h1 self2 h2 → extends self2 h2 self3 h3 →
  extends self1 h1 self3 h3.
Proof.
  intros (Hl1 & Hr1 & Hk1) (Hl2 & Hr2 & Hk2). repeat split.
  - lia.
  - intros r [Hr|Hr]%Hr2; [|right; lia].
    apply Hr1 in Hr as [?|?]; auto.
  - intros r Hlt Hr. rewrite Hk2, Hk1; [done..|lia|].
    intros [?|?]%Hr1; [done|lia].
Qed.

Lemma extends_untouched self h self1 h1 h2 :
  extends self h self1 h1 → untouched self1 h1 h2 →
  extends self h self1 h2.
Proof.
  intros (Hl1 & Hr1 & Hk1) [Hl2 Hk2]. repeat split.
  - lia.
  - done.
  - intros r Hlt Hr. rewrite Hk2, Hk1; [done..|].
    intros [?|?]%Hr1; [done|lia].
Qed.

Lemma extends_rebind self h t :
  extends self h (bind_ref t (length h) self) (h ++ [∅])%list.
Proof.
  repeat split.
  - rewrite length_app. lia.
  - intros r [->|Hr]%elem_of_references_bind; auto.
  - intros r Hlt _. by rewrite lookup_app_l.
Qed.

Lemma simulates_bind pure1 obj1 self h
    (pure2 : InspectModel → result InspectModel)
    (obj2 : InspectModelObject * list (gset string) →
            result (InspectModelObject * list (gset string))) :
  simulates pure1 obj1 self h →
  (∀ s1 self1 h1, represents self1 h1 s1 →
     simulates (pure2 s1) (obj2 (self1, h1)) self1 h1) →
  simulates (s1 ←! pure1; pure2 s1) (p ←! obj1; obj2 p) self h.
Proof.
  intros H1 H2. unfold simulates in H1. destruct pure1 as [s1|e]; simpl.
  - destruct H1 as (self1 & h1 & -> & Hrep1 & Hext1). simpl.
    specialize (H2 s1 self1 h1 Hrep1). unfold simulates in H2 |- *.
    destruct (pure2 s1) as [s2|e]; [|done].
    destruct H2 as (self2 & h2 & -> & Hrep2 & Hext2).
    exists self2, h2. eauto using extends_trans.
  - by rewrite H1.
Qed.

(** The three passes over [dir(self.model)] have one shape. *)
Lemma dir_pass_sim t (body : string → InspectModel → result InspectModel)
    (body_obj : InspectModelObject → string → list (gset string) →
                result (list (gset string))) self h s :
  (∀ self x h s, represents self h s →
     step_simulates (body x s) (body_obj self x h) self h) →
  represents self h s →
  simulates (for_each (dir_of (model s)) body (clear_type t s))
    (let self1 := bind_ref t (length h) self in
     h1 ←! for_each (dir_of (model_attr self1)) (body_obj self1)
             (h ++ [∅])%list;
     Ok (self1, h1)) self h.
Proof.
  intros Hbody Hrep. cbn zeta.
  pose proof (represents_rebind _ _ _ t Hrep) as Hrep1.
  replace (model_attr (bind_ref t (length h) self)) with (model s)
    by (destruct Hrep as [<- _]; by destruct t).
  pose proof (for_each_sim body (body_obj (bind_ref t (length h) self)) _
                (dir_of (model s)) (Hbody _) _ _ Hrep1) as Hloop.
  unfold step_simulates in Hloop. unfold simulates.
  destruct (for_each (dir_of (model s)) body (clear_type t s)) as [s'|e].
  - destruct Hloop as (h' & -> & Hrep' & Hun). simpl.
    eexists _, _. split; [done|]. split; [done|].
    eapply extends_untouched; [apply extends_rebind|done].
  - by rewrite Hloop.
Qed.

Lemma update_attributes_obj_sim env self h s :
  represents self h s →
  simulates (update_attributes env s) (update_attributes_obj env self h)
    self h.
Proof.
  intros Hrep.
  exact (dir_pass_sim Attributes _ (update_attributes_obj_body env) _ _ _
           (λ self x h s, update_attributes_obj_body_sim env self x h s)
           Hrep).
Qed.

Lemma update_methods_obj_sim self h s :
  represents self h s →
  simulates (update_methods s) (update_methods_obj self h) self h.
Proof.
  intros Hrep.
  exact (dir_pass_sim Methods _ update_methods_obj_body _ _ _
           update_methods_obj_body_sim Hrep).
Qed.

Lemma update_properties_obj_sim self h s :
  represents self h s →
  simulates (update_properties s) (update_properties_obj self h) self h.
Proof.
  intros Hrep.
  exact (dir_pass_sim Properties _ update_properties_obj_body _ _ _
           update_properties_obj_body_sim Hrep).
Qed.

Lemma update_generic_foreign_keys_obj_sim env self o h s :
  represents self h s →
  step_simulates (update_generic_foreign_keys env o s)
    (update_generic_foreign_keys_obj env self o h) self h.
Proof.
  intros Hrep.
  unfold update_generic_foreign_keys, update_generic_foreign_keys_obj.
  destruct (import_GenericForeignKey env) as [[]|[]]; try done;
    try by apply step_skip.
  apply for_each_sim; [|done].
  intros x h0 s0. apply virtual_fields_obj_body_sim.
Qed.

Lemma update_fields_obj_sim env self h s :
  represents self h s →
  simulates (update_fields env s) (update_fields_obj env self h) self h.
Proof.
  intros Hrep. unfold update_fields, update_fields_obj, set_new.
  set (self1 := bind_fields (length h) self).
  set (h1 := (h ++ [∅])%list).
  set (self2 := bind_relation_fields (length h1) self1).
  set (h2 := (h1 ++ [∅])%list).
  set (self3 := bind_many_fields (length h2) self2).
  set (h3 := (h2 ++ [∅])%list).
  assert (Hrep3 : represents self3 h3 (reset_fields s)).
  { change (reset_fields s) with
      (clear_type ManyFields (clear_type RelationFields
                                (clear_type Fields s))).
    apply (represents_rebind self2 h2 _ ManyFields).
    apply (represents_rebind self1 h1 _ RelationFields).
    by apply (represents_rebind self h _ Fields). }
  assert (Hext3 : extends self h self3 h3).
  { eapply extends_trans; [apply (extends_rebind _ _ Fields)|].
    eapply extends_trans; [apply (extends_rebind _ _ RelationFields)|].
    apply (extends_rebind _ _ ManyFields). }
  clearbody self3 h3. clear self1 h1 self2 h2.
  cbn zeta. replace (model_attr self3) with (model (reset_fields s))
    by (by destruct Hrep3 as [-> _]).
  destruct (getattr (model (reset_fields s)) "_meta" PyNone) as [opts|e];
    [|done].
  cbn [bind]. destruct (truthy opts).
  - destruct opts as [| |o| | | | | | | | | | | | | | |]; try done.
    cbn zeta.
    pose proof (for_each_sim (update_fields_body o)
                  (update_fields_obj_body self3 o) self3
                  (map name (get_fields o))
                  (λ x h s, update_fields_obj_body_sim self3 o x h s)
                  _ _ Hrep3) as Hloop.
    unfold step_simulates in Hloop. unfold simulates.
    destruct (for_each (map name (get_fields o)) (update_fields_body o)
                (reset_fields s)) as [s4|e]; [|by rewrite Hloop].
    destruct Hloop as (h4 & -> & Hrep4 & Hun4). cbn [bind].
    pose proof (update_generic_foreign_keys_obj_sim env self3 o h4 s4 Hrep4)
      as Hgen.
    unfold step_simulates in Hgen.
    destruct (update_generic_foreign_keys env o s4) as [s5|e];
      [|by rewrite Hgen].
    destruct Hgen as (h5 & -> & Hrep5 & Hun5). cbn [bind].
    eexists _, _. split; [done|]. split; [done|].
    eapply extends_untouched; [|done].
    eapply extends_untouched; done.
  - eexists _, _. split; [done|]. by split.
Qed.

(** ** The constructor on the store *)

Lemma init_obj_unfold env m h :
  init_obj env m h =
  (let self :=
     {| model_attr := AClass (class_of m); fields_attr := length h;
        relation_fields_attr := length h + 1;
        many_fields_attr := length h + 2;
        attributes_attr := length h + 3; methods_attr := length h + 4;
        items_attr := length h + 5; properties_attr := length h + 6 |} in
   p ←! update_fields_obj env self (h ++ replicate 7 ∅)%list;
   p ←! update_attributes_obj env p.1 p.2;
   p ←! update_methods_obj p.1 p.2;
   update_properties_obj p.1 p.2).
Proof.
  unfold init_obj, set_new. rewrite !length_app. simpl length.
  rewrite <- !app_assoc. simpl app. rewrite <- !Nat.add_assoc. simpl Nat.add.
  by destruct m.
Qed.

Lemma set_read_app_r h l k :
  set_read (length h + k) (h ++ l)%list = default ∅ (l !! k).
Proof.
  unfold set_read. rewrite lookup_app_r by lia.
  by replace (length h + k - length h)%nat with k by lia.
Qed.

Lemma new_inspector_represents c h :
  represents
    {| model_attr := AClass c; fields_attr := length h;
       relation_fields_attr := length h + 1;
       many_fields_attr := length h + 2;
       attributes_attr := length h + 3; methods_attr := length h + 4;
       items_attr := length h + 5; properties_attr := length h + 6 |}
    (h ++ replicate 7 ∅)%list (empty_inspector c).
Proof.
  repeat split.
  - intros t. replace (length h) with (length h + 0)%nat at 1 by lia.
    destruct t; simpl; by rewrite set_read_app_r.
  - simpl. by rewrite set_read_app_r.
  - unfold references. simpl.
    rewrite !NoDup_cons, !NoDup_nil, !not_elem_of_cons, !elem_of_nil.
    repeat split; try lia; tauto.
  - unfold references. simpl. rewrite !Forall_cons, length_app. simpl.
    repeat split; try lia. done.
Qed.

(** The constructor on the store does what the constructor of the
    functional model does, from any store, and writes to no object that
    was there before. *)
Lemma init_obj_sim env m h :
  match __init__ env m with
  | Ok s =>
      ∃ self h', init_obj env m h = Ok (self, h') ∧ represents self h' s ∧
                 (length h ≤ length h')%nat ∧
                 (∀ r : nat, r ∈ references self → (length h ≤ r)%nat) ∧
                 (∀ r : nat, (r < length h)%nat → h' !! r = h !! r)
  | Raise e => init_obj env m h = Raise e
  end.
Proof.
  rewrite init_unfold, init_obj_unfold. cbn zeta.
  set (self0 := {| model_attr := AClass (class_of m) |}).
  set (h0 := (h ++ replicate 7 ∅)%list).
  assert (Hrep0 : represents self0 h0 (empty_inspector (class_of m)))
    by apply new_inspector_represents.
  assert (Hsim : simulates
    (s ←! update_fields env (empty_inspector (class_of m));
     s ←! update_attributes env s;
     s ←! update_methods s;
     update_properties s)
    (p ←! update_fields_obj env self0 h0;
     p ←! update_attributes_obj env p.1 p.2;
     p ←! update_methods_obj p.1 p.2;
     update_properties_obj p.1 p.2) self0 h0).
  { apply (simulates_bind _ _ _ _
             (λ s, s ←! update_attributes env s;
                   s ←! update_methods s; update_properties s)
             (λ p, p ←! update_attributes_obj env p.1 p.2;
                   p ←! update_methods_obj p.1 p.2;
                   update_properties_obj p.1 p.2));
      [by apply update_fields_obj_sim|].
    intros s1 self1 h1 Hrep1.
    apply (simulates_bind _ _ _ _
             (λ s, s ←! update_methods s; update_properties s)
             (λ p, p ←! update_methods_obj p.1 p.2;
                   update_properties_obj p.1 p.2));
      [by apply update_attributes_obj_sim|].
    intros s2 self2 h2 Hrep2.
    apply (simulates_bind _ _ _ _ update_properties
             (λ p, update_properties_obj p.1 p.2));
      [by apply update_methods_obj_sim|].
    intros s3 self3 h3 Hrep3. by apply update_properties_obj_sim. }
  unfold simulates in Hsim.
  destruct (s ←! update_fields env (empty_inspector (class_of m));
            s ←! update_attributes env s;
            s ←! update_methods s;
            update_properties s) as [s|e]; [|done].
  destruct Hsim as (self' & h' & Hrun & Hrep & Hlen & Hrefs & Hkeep).
  assert (Hlen0 : length h0 = (length h + 7)%nat)
    by (unfold h0; rewrite length_app; done).
  assert (Hself0 : ∀ r : nat, r ∈ references self0 → (length h ≤ r)%nat).
  { intros r. unfold references, self0. simpl.
    rewrite !elem_of_cons, elem_of_nil. lia. }
  exists self', h'. split; [done|]. split; [done|]. split; [lia|]. split.
  - intros r [Hr|Hr]%Hrefs; [by apply Hself0|lia].
  - intros r Hr. rewrite Hkeep; [|lia|].
    + unfold h0. by rewrite lookup_app_l.
    + intros Hin%Hself0. lia.
Qed.

Lemma represents_sets_of self h s :
  represents self h s →
  sets_of self h =
  [fields s; relation_fields s; many_fields s; attributes s; methods s;
   items s; properties s].
Proof.
  intros (_ & Ht & Hi & _). unfold sets_of, references. simpl.
  pose proof (Ht Fields). pose proof (Ht RelationFields).
  pose proof (Ht ManyFields). pose proof (Ht Attributes).
  pose proof (Ht Methods). pose proof (Ht Properties).
  simpl in *. congruence.
Qed.

Lemma sets_of_kept self h h' :
  (∀ r : nat, r ∈ references self → h' !! r = h !! r) →
  sets_of self h' = sets_of self h.
Proof.
  intros Hkeep. unfold sets_of. apply list_fmap_ext.
  intros i r Hr. unfold set_read. rewrite Hkeep; [done|].
  by eapply list_elem_of_lookup_2.
Qed.

Lemma init_obj_Ok env m h o h' :
  init_obj env m h = Ok (o, h') →
  ∃ s, __init__ env m = Ok s ∧ represents o h' s ∧
       (length h ≤ length h')%nat ∧
       (∀ r : nat, r ∈ references o → (length h ≤ r)%nat) ∧
       (∀ r : nat, (r < length h)%nat → h' !! r = h !! r).
Proof.
  intros Hrun. pose proof (init_obj_sim env m h) as Hsim.
  destruct (__init__ env m) as [s|e]; [|congruence].
  destruct Hsim as (o' & h'' & Hrun' & Hrest).
  rewrite Hrun in Hrun'. injection Hrun' as <- <-. by exists s.
Qed.

Lemma photo_init_obj :
  init_obj env18 (AClass photo) [] = Ok (photo_object, photo_store).
Proof. vm_compute. reflexivity. Qed.

(** ** C9: two constructions on the same model *)

(** C9: construction is deterministic.  The sets of an inspector are
    objects of the interpreter's store, which is state the constructor
    reads and writes and that its caller does not pass.  Whatever the
    store holds when the first inspector is made, making a second one on
    the same model, in the same framework, in the store the first
    construction left, succeeds too; its seven sets ([fields],
    [relation_fields], [many_fields], [attributes], [methods], [items],
    [properties]) hold what the first inspector's seven hold; the first
    inspector's sets are as they were; and the two inspectors share no
    set. *)
Theorem C9_two_constructions env m h0 o1 h1 :
  init_obj env m h0 = Ok (o1, h1) →
  ∃ o2 h2, init_obj env m h1 = Ok (o2, h2) ∧
    model_attr o2 = model_attr o1 ∧
    sets_of o2 h2 = sets_of o1 h1 ∧
    sets_of o1 h2 = sets_of o1 h1 ∧
    ∀ r : nat, r ∈ references o1 → (r ∉ references o2).
Proof.
  intros (s & Hinit & Hrep1 & _)%init_obj_Ok.
  pose proof (init_obj_sim env m h1) as Hsim. rewrite Hinit in Hsim.
  destruct Hsim as (o2 & h2 & Hrun2 & Hrep2 & _ & Hnew & Hkeep).
  assert (Hlt : ∀ r : nat, r ∈ references o1 → (r < length h1)%nat).
  { destruct Hrep1 as (_ & _ & _ & _ & Hall).
    by rewrite Forall_forall in Hall. }
  exists o2, h2. split; [done|]. split; [|split; [|split]].
  - destruct Hrep1 as [-> _]. by destruct Hrep2 as [-> _].
  - by rewrite (represents_sets_of _ _ _ Hrep1),
      (represents_sets_of _ _ _ Hrep2).
  - apply sets_of_kept. intros r Hr. by apply Hkeep, Hlt.
  - intros r Hr1%Hlt Hr2%Hnew. lia.
Qed.

Lemma C9_two_constructions_witness :
  init_obj env18 (AClass photo) [] = Ok (photo_object, photo_store) ∧
  ∃ o2 h2, init_obj env18 (AClass photo) photo_store = Ok (o2, h2) ∧
    model_attr o2 = model_attr photo_object ∧
    sets_of o2 h2 = sets_of photo_object photo_store ∧
    sets_of photo_object h2 = sets_of photo_object photo_store ∧
    ∀ r : nat, r ∈ references photo_object → (r ∉ references o2).
Proof.
  split; [exact photo_init_obj|].
  apply (C9_two_constructions env18 (AClass photo) []).
  exact photo_init_obj.
Defined.

(** ** The store model and the functional model *)

(** X19: the constructor that keeps its sets in the store does what the
    constructor of the functional model does, whatever the store holds: it
    raises the same exception, or it returns an inspector object whose
    seven references are distinct objects holding the seven sets of the
    functional inspector. *)
Theorem store_constructor_refines env m h :
  match __init__ env m with
  | Ok s => ∃ o h', init_obj env m h = Ok (o, h') ∧ represents o h' s
  | Raise e => init_obj env m h = Raise e
  end.
Proof.
  pose proof (init_obj_sim env m h) as Hsim.
  destruct (__init__ env m) as [s|e]; [|done].
  destruct Hsim as (o & h' & Hrun & Hrep & _). eauto.
Qed.

(** X20: a construction writes only to sets it makes.  The seven sets of
    the inspector it returns are seven distinct objects that were not in
    the store before, and every object that was there is left as it
    was. *)
Theorem construction_makes_its_sets env m h o h' :
  init_obj env m h = Ok (o, h') →
  NoDup (references o) ∧
  (∀ r : nat, r ∈ references o → (length h ≤ r < length h')%nat) ∧
  (∀ r : nat, (r < length h)%nat → h' !! r = h !! r).
Proof.
  intros (s & _ & Hrep & _ & Hnew & Hkeep)%init_obj_Ok.
  destruct Hrep as (_ & _ & _ & Hnd & Hall).
  rewrite Forall_forall in Hall.
  split; [done|]. split; [|done].
  intros r Hr. split; [by apply Hnew|by apply Hall].
Qed.

Lemma construction_makes_its_sets_witness :
  init_obj env18 (AClass photo) [] = Ok (photo_object, photo_store) ∧
  NoDup (references photo_object) ∧
  (∀ r : nat, r ∈ references photo_object →
     (length ([] : list (gset string)) ≤ r < length photo_store)%nat) ∧
  (∀ r : nat, (r < length ([] : list (gset string)))%nat →
     photo_store !! r = ([] : list (gset string)) !! r).
Proof.
  split; [exact photo_init_obj|].
  apply (construction_makes_its_sets env18 (AClass photo)).
  exact photo_init_obj.
Defined.
